(** * go-cidr-manager: the IPv4 CIDR block library, embedded and verified

    The Go package [ipv4cidr] (with its sub-packages [consts] and [utils])
    is embedded shallowly: unsigned machine integers are values of [Z] with
    the wrap-around written out, Go strings are lists of bytes, and every
    fallible function returns a [result] that also records a run-time
    panic.  The definitions come first, one module per Go package; the
    theorems follow. *)

From Stdlib Require Import ZArith List Ascii String Bool Lia DecimalString.
From coqutil Require Import Z.bitblast.
Import ListNotations.

Local Open Scope Z_scope.

(** ** Go values *)

(** A Go string is a sequence of bytes. *)
Definition gostring : Type := list ascii.

Definition str (s : string) : gostring := list_ascii_of_string s.

Definition code (c : ascii) : Z := Z.of_N (N_of_ascii c).

(** Conversions to the fixed-width unsigned types keep the low bits. *)
Definition uint8 (z : Z) : Z := z mod 2 ^ 8.
Definition uint32 (z : Z) : Z := z mod 2 ^ 32.

(** [x << s] and [x >> s] on a [uint32] with an unsigned shift count: the
    bits shifted beyond the width are lost, whatever the count. *)
Definition shl32 (x s : Z) : Z := uint32 (Z.shiftl x s).
Definition shr32 (x s : Z) : Z := Z.shiftr x s.

(** The errors of the package are created from the message constants of
    [consts/errors.go]; the two last ones are the [*strconv.NumError]
    values that [strconv.Atoi] returns. *)
Inductive error : Type :=
| InvalidIPv4CIDRError
| NonStandardizedIPError
| NoMoreSplittingPossibleError
| RequestedIPExceedsCIDRRangeError
| ErrSyntax
| ErrRange.

(** What a call does: it returns a value, returns an error, or panics
    (an index out of range). *)
Inductive result (A : Type) : Type :=
| Ok (a : A)
| Err (e : error)
| Panic.

Arguments Ok {A} a.
Arguments Err {A} e.
Arguments Panic {A}.

Definition bind {A B : Type} (r : result A) (k : A -> result B) : result B :=
  match r with
  | Ok a => k a
  | Err e => Err e
  | Panic => Panic
  end.

Notation "x <- r ;; k" := (bind r (fun x => k))
  (at level 61, r at next level, right associativity).

(** ** The parts of the Go standard library that the package calls *)

Module strconv.

Definition is_digit (c : ascii) : bool :=
  (48 <=? code c) && (code c <=? 57).

(** The digit loop of [Atoi]: [n = n*10 + int(ch - '0')], a syntax error
    at the first byte that is not a digit. *)
Fixpoint digits (s : gostring) (n : Z) : option Z :=
  match s with
  | [] => Some n
  | ch :: s' =>
      if is_digit ch then digits s' (n * 10 + (code ch - 48)) else None
  end.

(** [strconv.Atoi]: an optional sign, then at least one decimal digit
    and nothing else; the value has to fit the 64-bit [int]. *)
Definition Atoi (s : gostring) : result Z :=
  match s with
  | [] => Err ErrSyntax
  | c :: s' =>
      let neg := Ascii.eqb c "-" in
      let body := if neg || Ascii.eqb c "+" then s' else s in
      match body with
      | [] => Err ErrSyntax
      | _ =>
          match digits body 0 with
          | None => Err ErrSyntax
          | Some n =>
              let v := if neg then - n else n in
              if (- 2 ^ 63 <=? v) && (v <=? 2 ^ 63 - 1) then Ok v
              else Err ErrRange
          end
      end
  end.

(** [strconv.Itoa]: the decimal writing of an [int]. *)
Definition Itoa (n : Z) : gostring :=
  str (NilEmpty.string_of_int (Z.to_int n)).

End strconv.

Module strings.

(** [strings.Split(s, sep)] for a separator of one byte: all the
    substrings between the separators, [[""]] for the empty string. *)
Fixpoint Split (s : gostring) (sep : ascii) : list gostring :=
  match s with
  | [] => [[]]
  | c :: s' =>
      if Ascii.eqb c sep then [] :: Split s' sep
      else match Split s' sep with
           | w :: ws => (c :: w) :: ws
           | [] => [[c]]
           end
  end.

(** [strings.Join(elems, sep)]. *)
Fixpoint Join (elems : list gostring) (sep : gostring) : gostring :=
  match elems with
  | [] => []
  | [e] => e
  | e :: es => e ++ sep ++ Join es sep
  end.

End strings.

Module math.

(** [math.Pow(2, k)] for an integer [0 <= k < 1024]: the power is a
    float64 that is an integer, kept here as that integer. *)
Definition Pow2 (k : Z) : Z := 2 ^ k.

(** The conversion [uint32(f)] of a non-negative integral float64.  The
    compiler converts to a signed 64-bit integer and keeps the low 32
    bits; a value that does not fit 64 bits converts to [-2^63], whose
    low 32 bits are zero.  The package's test of [GetCIDRRangeLength]
    runs down to mask 0 and relies on it. *)
Definition to_uint32 (f : Z) : Z :=
  if f <? 2 ^ 63 then uint32 f else 0.

End math.

(** ** Regular expressions

    The fragment of the syntax that the validation pattern uses: literal
    bytes, bracket classes, concatenation, alternation, [?] and [{n}]
    (a repetition count unfolds into that many copies, as the regexp
    compiler does).  The pattern is anchored at both ends ([^] ... [$]),
    so a match is a match of the whole input. *)

Module regexp.

Inductive regex : Type :=
| Eps
| Lit (c : ascii)
| Class (ranges : list (ascii * ascii))
| Cat (r1 r2 : regex)
| Alt (r1 r2 : regex)
| Opt (r : regex).

Fixpoint Rep (n : nat) (r : regex) : regex :=
  match n with
  | O => Eps
  | S m => Cat r (Rep m r)
  end.

Definition in_range (c : ascii) (lh : ascii * ascii) : bool :=
  (code (fst lh) <=? code c) && (code c <=? code (snd lh)).

Definition in_class (ranges : list (ascii * ascii)) (c : ascii) : bool :=
  existsb (in_range c) ranges.

(** [rests r s]: what is left of [s] after each way of matching [r] at
    its beginning. *)
Fixpoint rests (r : regex) (s : gostring) : list gostring :=
  match r with
  | Eps => [s]
  | Lit c =>
      match s with
      | c' :: s' => if Ascii.eqb c' c then [s'] else []
      | [] => []
      end
  | Class ranges =>
      match s with
      | c' :: s' => if in_class ranges c' then [s'] else []
      | [] => []
      end
  | Cat r1 r2 => flat_map (rests r2) (rests r1 s)
  | Alt r1 r2 => rests r1 s ++ rests r2 s
  | Opt r1 => s :: rests r1 s
  end.

Definition is_empty (s : gostring) : bool :=
  match s with [] => true | _ => false end.

(** [regexp.Match] of an anchored pattern. *)
Definition Match (r : regex) (s : gostring) : bool :=
  existsb is_empty (rests r s).

End regexp.

(** The language of a pattern, as a predicate on whole strings, and the
    list of its words (the fragment has no star, so there are finitely
    many). *)

Module lang.

Import regexp.

Fixpoint matches (r : regex) (s : gostring) : Prop :=
  match r with
  | Eps => s = []
  | Lit c => s = [c]
  | Class ranges => exists c, s = [c] /\ in_class ranges c = true
  | Cat r1 r2 => exists s1 s2, s = s1 ++ s2 /\ matches r1 s1 /\ matches r2 s2
  | Alt r1 r2 => matches r1 s \/ matches r2 s
  | Opt r1 => s = [] \/ matches r1 s
  end.

Definition all_bytes : list ascii :=
  map (fun n => ascii_of_N (N.of_nat n)) (seq 0 256).

Fixpoint words (r : regex) : list gostring :=
  match r with
  | Eps => [[]]
  | Lit c => [[c]]
  | Class ranges => map (fun c => [c]) (filter (in_class ranges) all_bytes)
  | Cat r1 r2 => flat_map (fun p => map (app p) (words r2)) (words r1)
  | Alt r1 r2 => words r1 ++ words r2
  | Opt r1 => [] :: words r1
  end.

End lang.

(** ** Package consts *)

Module consts.

Definition MaxUInt32 : Z := 2 ^ 32 - 1.
Definition MaxBits : Z := 32.
Definition EightBits : Z := 255.
Definition GroupSize : Z := 8.
Definition HighestBitSet : Z := shl32 1 (uint8 (MaxBits - 1)).

Import regexp.

Definition digit_0_5 : regex := Class [("0", "5")]%char.
Definition digit_0_4 : regex := Class [("0", "4")]%char.
Definition digit_0_9 : regex := Class [("0", "9")]%char.
Definition digit_0_1 : regex := Class [("0", "0"); ("1", "1")]%char.
Definition digit_1_2 : regex := Class [("1", "2")]%char.
Definition digit_0_2 : regex := Class [("0", "2")]%char.

(** [(?:25[0-5]|2[0-4][0-9]|[01]?[0-9][0-9]?)] *)
Definition octet : regex :=
  Alt (Cat (Lit "2") (Cat (Lit "5") digit_0_5))
    (Alt (Cat (Lit "2") (Cat digit_0_4 digit_0_9))
       (Cat (Opt digit_0_1) (Cat digit_0_9 (Opt digit_0_9)))).

(** [(?:[0-9]|[1-2][0-9]|3[0-2])] *)
Definition prefix : regex :=
  Alt digit_0_9 (Alt (Cat digit_1_2 digit_0_9) (Cat (Lit "3") digit_0_2)).

(** [^(?:octet\.){3}octet(?:\/prefix)?$] *)
Definition IPv4CIDRRegex : regex :=
  Cat (Rep 3 (Cat octet (Lit ".")))
    (Cat octet (Opt (Cat (Lit "/") prefix))).

End consts.

(** ** Package utils *)

Module utils.

Definition GetNetmask (mask : Z) : Z :=
  shl32 consts.MaxUInt32 (uint8 (consts.MaxBits - mask)).

Definition GetCIDRRangeLength (mask : Z) : Z :=
  math.to_uint32 (math.Pow2 (uint8 (consts.MaxBits - mask))).

Definition Standardize (ip netmask : Z) : Z := Z.land ip netmask.

(** [None] is the nil error. *)
Definition CheckStandardized (ip netmask : Z) : option error :=
  if ip =? Standardize ip netmask then None
  else Some NonStandardizedIPError.

(** The loop of [ConvertIPToString], from [i = 3] down: the section
    written at index [i] is consed in front of the later ones. *)
Fixpoint sections (k : nat) (ip : Z) (ipSections : list gostring)
  : list gostring :=
  match k with
  | O => ipSections
  | S k' =>
      let sectionInt := Z.land ip consts.EightBits in
      sections k' (shr32 ip consts.GroupSize)
        (strconv.Itoa sectionInt :: ipSections)
  end.

Definition ConvertIPToString (ip : Z) : gostring :=
  strings.Join (sections 4 ip []) (str ".").

End utils.

(** ** Package ipv4cidr *)

Module ipv4cidr.

Record IPv4CIDR : Type := mkIPv4CIDR {
  ip : Z;
  mask : Z;
  netmask : Z;
  rangeLength : Z
}.

(** [l[i]]: an index beyond the length panics. *)
Definition index {A : Type} (l : list A) (i : nat) : result A :=
  match nth_error l i with
  | Some a => Ok a
  | None => Panic
  end.

(** The loop [for i := 0; i < 4; i++] of [parse], with [k] rounds to
    go. *)
Fixpoint octets (k : nat) (i : nat) (ipNumbers : list gostring) (ip : Z)
  : result Z :=
  match k with
  | O => Ok ip
  | S k' =>
      s <- index ipNumbers i ;;
      tempIP <- strconv.Atoi s ;;
      let ip := shl32 ip consts.GroupSize in
      let ip := Z.lor ip (uint32 tempIP) in
      octets k' (S i) ipNumbers ip
  end.

(** [parse] fills the receiver [i]; what is returned here is the
    receiver after the call. *)
Definition parse (i : IPv4CIDR) (ipString : gostring) (standardize : bool)
  : result IPv4CIDR :=
  let ip := 0 in
  let mask := 32 in
  let ipSections := strings.Split ipString "/" in
  mask <- (if (List.length ipSections =? 2)%nat then
             s <- index ipSections 1 ;;
             tempMask <- strconv.Atoi s ;;
             Ok (uint8 tempMask)
           else Ok mask) ;;
  s0 <- index ipSections 0 ;;
  let ipNumbers := strings.Split s0 "." in
  ip <- octets 4 0 ipNumbers ip ;;
  let netmask := utils.GetNetmask mask in
  let rangeLength := utils.GetCIDRRangeLength mask in
  ip <- (if standardize then Ok (utils.Standardize ip netmask)
         else match utils.CheckStandardized ip netmask with
              | Some err => Err err
              | None => Ok ip
              end) ;;
  Ok {| ip := ip; mask := mask; rangeLength := rangeLength;
        netmask := netmask |}.

(** The pattern is a constant that compiles, so [regexp.Match] returns
    no error of its own. *)
Definition NewIPv4CIDR (IP : gostring) (standardize : bool)
  : result IPv4CIDR :=
  let isValid := regexp.Match consts.IPv4CIDRRegex IP in
  if negb isValid then Err InvalidIPv4CIDRError
  else parse (mkIPv4CIDR 0 0 0 0) IP standardize.

Definition Split (i : IPv4CIDR) : result (IPv4CIDR * IPv4CIDR) :=
  if rangeLength i =? 1 then Err NoMoreSplittingPossibleError
  else
    let newMask := uint8 (mask i + 1) in
    let newRange := rangeLength i / 2 in
    let newNetmask := Z.lor (shr32 (netmask i) 1) consts.HighestBitSet in
    let newIP1 := ip i in
    let newIP2 := Z.lor (ip i) (Z.lxor newNetmask (netmask i)) in
    let IP1 := {| ip := newIP1; mask := newMask; rangeLength := newRange;
                  netmask := newNetmask |} in
    let IP2 := {| ip := newIP2; mask := newMask; rangeLength := newRange;
                  netmask := newNetmask |} in
    Ok (IP1, IP2).

(** [n] is a [uint32]. *)
Definition GetIPInRange (i : IPv4CIDR) (n : Z) (withCIDR : bool)
  : result gostring :=
  if rangeLength i <? n then Err RequestedIPExceedsCIDRRangeError
  else
    let nthIP := uint32 (uint32 (ip i + n) - 1) in
    let nthIPstr := utils.ConvertIPToString nthIP in
    if withCIDR then
      let mask := strconv.Itoa (mask i) in
      Ok (strings.Join [nthIPstr; mask] (str "/"))
    else Ok nthIPstr.

Definition ToString (i : IPv4CIDR) : gostring :=
  let ip := utils.ConvertIPToString (ip i) in
  let mask := strconv.Itoa (mask i) in
  strings.Join [ip; mask] (str "/").

Definition GetIP (i : IPv4CIDR) : gostring :=
  utils.ConvertIPToString (ip i).

Definition GetCIDRRangeLength (i : IPv4CIDR) : Z := rangeLength i.

Definition GetMask (i : IPv4CIDR) : Z := mask i.

Definition GetNetmask (i : IPv4CIDR) : gostring :=
  utils.ConvertIPToString (netmask i).

End ipv4cidr.

(** ** Notions used by the statements *)

Module facts.

Import regexp lang ipv4cidr.

(** Only decimal digits. *)
Definition digit_string (s : gostring) : bool :=
  forallb strconv.is_digit s.

(** [s] is made of at most [len] digits, at least one, and reads as a
    number of [0 .. hi]. *)
Definition number_upto (len : nat) (hi : Z) (s : gostring) : bool :=
  digit_string s && (1 <=? List.length s)%nat && (List.length s <=? len)%nat
  && match strconv.Atoi s with
     | Ok v => (0 <=? v) && (v <=? hi)
     | _ => false
     end.

(** The value that the loop of [parse] leaves in [ip] after the four
    sections [v1 .. v4]. *)
Definition pack (v1 v2 v3 v4 : Z) : Z :=
  let step ip v := Z.lor (shl32 ip consts.GroupSize) (uint32 v) in
  step (step (step (step 0 v1) v2) v3) v4.

(** The end of [parse], once the mask and the address are read. *)
Definition build (ip mask : Z) (standardize : bool) : result IPv4CIDR :=
  let netmask := utils.GetNetmask mask in
  let rangeLength := utils.GetCIDRRangeLength mask in
  ip <- (if standardize then Ok (utils.Standardize ip netmask)
         else match utils.CheckStandardized ip netmask with
              | Some err => Err err
              | None => Ok ip
              end) ;;
  Ok {| ip := ip; mask := mask; rangeLength := rangeLength;
        netmask := netmask |}.

(** The four sections of an address, most significant first. *)
Definition byte3 (a : Z) : Z :=
  Z.land (shr32 (shr32 (shr32 a consts.GroupSize) consts.GroupSize)
            consts.GroupSize) consts.EightBits.
Definition byte2 (a : Z) : Z :=
  Z.land (shr32 (shr32 a consts.GroupSize) consts.GroupSize) consts.EightBits.
Definition byte1 (a : Z) : Z :=
  Z.land (shr32 a consts.GroupSize) consts.EightBits.
Definition byte0 (a : Z) : Z := Z.land a consts.EightBits.

(** [a.b.c.d] *)
Definition dotted (a b c d : gostring) : gostring :=
  a ++ "."%char :: b ++ "."%char :: c ++ "."%char :: d.

(** The blocks a program can hold: those that [NewIPv4CIDR] returns and
    the halves that [Split] makes of them. *)
Inductive Reachable : IPv4CIDR -> Prop :=
| reach_new IP standardize b :
    NewIPv4CIDR IP standardize = Ok b -> Reachable b
| reach_lower i lo hi :
    Reachable i -> Split i = Ok (lo, hi) -> Reachable lo
| reach_upper i lo hi :
    Reachable i -> Split i = Ok (lo, hi) -> Reachable hi.

(** What every such block satisfies: its netmask is the netmask of a
    prefix length [k], its address is a uint32 in standard form, and its
    range length is either the wrapped-around zero (the /0 block and
    what is split off it) or the [2^(32-k)] of its own mask [k]. *)
Definition block_inv (b : IPv4CIDR) : Prop :=
  exists k,
    0 <= k <= 32 /\ netmask b = utils.GetNetmask k /\
    0 <= ip b < 2 ^ 32 /\ Z.land (ip b) (netmask b) = ip b /\
    (rangeLength b = 0 \/
     (1 <= k /\ mask b = k /\ rangeLength b = 2 ^ (32 - k))).

(** An octet written with a leading zero: two or three digits, the
    first of them [0]. *)
Definition zero_led (o : gostring) : bool :=
  match o with
  | c :: rest =>
      Ascii.eqb c "0" && digit_string rest
      && (1 <=? List.length rest)%nat && (List.length rest <=? 2)%nat
  | [] => false
  end.

Definition digit_chars : list ascii :=
  ["0"; "1"; "2"; "3"; "4"; "5"; "6"; "7"; "8"; "9"]%char.

(** All the strings of one, two or three digits. *)
Definition digit_strings : list gostring :=
  let one := map (fun c => [c]) digit_chars in
  let two := flat_map (fun c => map (cons c) one) digit_chars in
  let three := flat_map (fun c => map (cons c) two) digit_chars in
  one ++ two ++ three.

(** A number written with a zero in front of other digits. *)
Definition leading_zero (e : gostring) : bool :=
  match e with
  | c :: _ :: _ => Ascii.eqb c "0"
  | _ => false
  end.

(** The blocks of 10.10.0.0/26 and of 0.0.0.0/0, used as examples. *)
Definition block_10_10_0_0_26 : IPv4CIDR :=
  {| ip := 168427520; mask := 26; netmask := 4294967232;
     rangeLength := 64 |}.

Definition block_0_0_0_0_0 : IPv4CIDR :=
  {| ip := 0; mask := 0; netmask := 0; rangeLength := 0 |}.

(** The two halves of 10.10.0.0/26. *)
Definition block_10_10_0_0_27 : IPv4CIDR :=
  {| ip := 168427520; mask := 27; netmask := 4294967264;
     rangeLength := 32 |}.

Definition block_10_10_0_32_27 : IPv4CIDR :=
  {| ip := 168427552; mask := 27; netmask := 4294967264;
     rangeLength := 32 |}.

(** The block of the single address 10.2.3.4. *)
Definition block_10_2_3_4_32 : IPv4CIDR :=
  {| ip := 167904004; mask := 32; netmask := 4294967295;
     rangeLength := 1 |}.

(** The decimal digit [d] (0 to 9) as a byte. *)
Definition digit (d : Z) : ascii := ascii_of_N (Z.to_N (48 + d)).

(** A number of 0 to 999 written in decimal, without leading zeros. *)
Definition decimal (v : Z) : gostring :=
  if v <? 10 then [digit v]
  else if v <? 100 then [digit (v / 10); digit (v mod 10)]
  else [digit (v / 100); digit (v / 10 mod 10); digit (v mod 10)].

(** The dotted-quad writing of an address: its four groups of eight bits,
    the most significant first, each in decimal, joined by dots. *)
Definition dotted_quad (a : Z) : gostring :=
  dotted (decimal (a / 2 ^ 24 mod 256)) (decimal (a / 2 ^ 16 mod 256))
    (decimal (a / 2 ^ 8 mod 256)) (decimal (a mod 256)).

End facts.

Import regexp lang ipv4cidr facts.

(** * Theorems *)


Lemma rests_spec (r : regex) :
  forall s t, In t (rests r s) <-> exists p, s = p ++ t /\ matches r p.
Proof.
  induction r as [ | c | ranges | r1 IH1 r2 IH2 | r1 IH1 r2 IH2 | r1 IH1];
    intros s t; simpl.
  - split.
    + intros [<- | []]. now exists [].
    + intros (p & -> & ->). now left.
  - destruct s as [ | c' s'].
    + split; [intros [] | intros (p & Hs & ->); discriminate].
    + destruct (Ascii.eqb_spec c' c) as [-> | Hne]; simpl.
      * split.
        -- intros [<- | []]. now exists [c].
        -- intros (p & Hs & ->). simpl in Hs. injection Hs as <-. now left.
      * split; [intros [] | intros (p & Hs & ->); simpl in Hs; congruence].
  - destruct s as [ | c' s'].
    + split; [intros [] | intros (p & Hs & c & -> & _); discriminate].
    + destruct (in_class ranges c') eqn:Hc; simpl.
      * split.
        -- intros [<- | []]. exists [c']. split; [reflexivity | now exists c'].
        -- intros (p & Hs & c & -> & _). simpl in Hs. injection Hs as _ <-. now left.
      * split; [intros [] | ].
        intros (p & Hs & c & -> & Hin). simpl in Hs. injection Hs as <- _. congruence.
  - rewrite in_flat_map. split.
    + intros (u & Hu & Ht). apply IH1 in Hu as (p1 & -> & Hp1).
      apply IH2 in Ht as (p2 & -> & Hp2).
      exists (p1 ++ p2). rewrite <- app_assoc. split; [reflexivity | ].
      now exists p1, p2.
    + intros (p & -> & p1 & p2 & -> & Hp1 & Hp2).
      exists (p2 ++ t). split.
      * apply IH1. exists p1. now rewrite <- app_assoc.
      * apply IH2. now exists p2.
  - rewrite in_app_iff, IH1, IH2. split.
    + intros [(p & Hs & Hp) | (p & Hs & Hp)]; exists p; tauto.
    + intros (p & Hs & [Hp | Hp]); [left | right]; now exists p.
  - rewrite IH1. split.
    + intros [<- | (p & Hs & Hp)]; [exists []; tauto | exists p; tauto].
    + intros (p & -> & [-> | Hp]); [now left | right; now exists p].
Qed.

Lemma Match_spec (r : regex) (s : gostring) :
  Match r s = true <-> matches r s.
Proof.
  unfold Match. rewrite existsb_exists. split.
  - intros (t & Ht & He). destruct t; [ | discriminate].
    apply rests_spec in Ht as (p & -> & Hp). now rewrite app_nil_r.
  - intros Hm. exists []. split; [ | reflexivity].
    apply rests_spec. exists s. now rewrite app_nil_r.
Qed.

Lemma all_bytes_complete (c : ascii) : In c all_bytes.
Proof.
  assert (H : existsb (Ascii.eqb c) all_bytes = true)
    by (destruct c as [[] [] [] [] [] [] [] []]; vm_compute; reflexivity).
  apply existsb_exists in H as (x & Hx & He).
  apply Ascii.eqb_eq in He. now subst.
Qed.

Lemma words_spec (r : regex) :
  forall s, matches r s <-> In s (words r).
Proof.
  induction r as [ | c | ranges | r1 IH1 r2 IH2 | r1 IH1 r2 IH2 | r1 IH1];
    intros s; cbn [matches words].
  - simpl. intuition congruence.
  - simpl. intuition congruence.
  - rewrite in_map_iff. split.
    + intros (c & -> & Hc). exists c. split; [reflexivity | ].
      apply filter_In. split; [apply all_bytes_complete | exact Hc].
    + intros (c & <- & Hc). apply filter_In in Hc. exists c. tauto.
  - rewrite in_flat_map. split.
    + intros (s1 & s2 & -> & H1 & H2). exists s1. split; [now apply IH1 | ].
      apply in_map. now apply IH2.
    + intros (p & Hp & Hs). apply in_map_iff in Hs as (q & <- & Hq).
      exists p, q. rewrite IH1, IH2. tauto.
  - now rewrite in_app_iff, IH1, IH2.
  - rewrite IH1. simpl. intuition congruence.
Qed.

(** ** Strings *)

Ltac norm_app := repeat (progress (rewrite <- ?app_assoc; simpl)).

Lemma Split_nosep (s : gostring) (sep : ascii) :
  ~ In sep s -> strings.Split s sep = [s].
Proof.
  induction s as [ | c s IH]; intros Hs; simpl; [reflexivity | ].
  destruct (Ascii.eqb_spec c sep) as [-> | Hne].
  - exfalso. apply Hs. now left.
  - rewrite IH; [reflexivity | ]. intros Hin. apply Hs. now right.
Qed.

Lemma Split_app (a b : gostring) (sep : ascii) :
  ~ In sep a ->
  strings.Split (a ++ sep :: b) sep = a :: strings.Split b sep.
Proof.
  induction a as [ | c a IH]; intros Ha; simpl.
  - now rewrite Ascii.eqb_refl.
  - destruct (Ascii.eqb_spec c sep) as [-> | Hne].
    + exfalso. apply Ha. now left.
    + rewrite IH; [reflexivity | ]. intros Hin. apply Ha. now right.
Qed.

Lemma digit_string_not_in (s : gostring) (c : ascii) :
  digit_string s = true -> strconv.is_digit c = false -> ~ In c s.
Proof.
  unfold digit_string. rewrite forallb_forall. intros Hs Hc Hin.
  apply Hs in Hin. congruence.
Qed.

Lemma number_upto_digits len hi s :
  number_upto len hi s = true -> digit_string s = true.
Proof.
  unfold number_upto. rewrite !andb_true_iff. tauto.
Qed.

Lemma number_upto_Atoi len hi s :
  number_upto len hi s = true ->
  exists v, strconv.Atoi s = Ok v /\ 0 <= v <= hi.
Proof.
  unfold number_upto. rewrite !andb_true_iff. intros (_ & Hv).
  destruct (strconv.Atoi s) as [v | | ]; try discriminate.
  exists v. split; [reflexivity | lia].
Qed.

Lemma number_upto_length len hi s :
  number_upto len hi s = true ->
  (1 <= List.length s <= len)%nat.
Proof.
  unfold number_upto. rewrite !andb_true_iff.
  intros (((_ & H1) & H2) & _).
  apply Nat.leb_le in H1, H2. lia.
Qed.

(** ** What the validation pattern accepts *)

Lemma octet_words : forallb (number_upto 3 255) (words consts.octet) = true.
Proof. vm_compute. reflexivity. Qed.

Lemma prefix_words : forallb (number_upto 2 32) (words consts.prefix) = true.
Proof. vm_compute. reflexivity. Qed.

Lemma octet_number (o : gostring) :
  matches consts.octet o -> number_upto 3 255 o = true.
Proof.
  intros H. apply words_spec in H.
  exact (proj1 (forallb_forall _ _) octet_words o H).
Qed.

Lemma prefix_number (e : gostring) :
  matches consts.prefix e -> number_upto 2 32 e = true.
Proof.
  intros H. apply words_spec in H.
  exact (proj1 (forallb_forall _ _) prefix_words e H).
Qed.

(** A string matches the pattern exactly when it is four octets joined
    by dots, with or without a slash and a prefix length behind. *)
Lemma IPv4CIDRRegex_shape (s : gostring) :
  matches consts.IPv4CIDRRegex s <->
  exists o1 o2 o3 o4 sfx,
    s = dotted o1 o2 o3 o4 ++ sfx /\
    matches consts.octet o1 /\ matches consts.octet o2 /\
    matches consts.octet o3 /\ matches consts.octet o4 /\
    (sfx = [] \/ exists e, sfx = "/"%char :: e /\ matches consts.prefix e).
Proof.
  unfold consts.IPv4CIDRRegex, dotted.
  cbn [matches Rep]. fold consts.octet consts.prefix. split.
  - intros (s123 & s4 & -> &
            (a & r1 & -> & (o1 & d1 & -> & Ho1 & ->) &
             b & r2 & -> & (o2 & d2 & -> & Ho2 & ->) &
             c & r3 & -> & (o3 & d3 & -> & Ho3 & ->) & ->) &
            o4 & sfx & -> & Ho4 & Hsfx).
    exists o1, o2, o3, o4, sfx. repeat split; try assumption.
    + norm_app. reflexivity.
    + destruct Hsfx as [-> | (sl & e & -> & -> & He)]; [now left | right].
      now exists e.
  - intros (o1 & o2 & o3 & o4 & sfx & -> & Ho1 & Ho2 & Ho3 & Ho4 & Hsfx).
    exists (o1 ++ ["."%char] ++ o2 ++ ["."%char] ++ o3 ++ ["."%char]),
      (o4 ++ sfx). split.
    { norm_app. reflexivity. }
    split.
    + exists (o1 ++ ["."%char]), (o2 ++ ["."%char] ++ o3 ++ ["."%char]).
      split; [norm_app; reflexivity | ]. split; [now exists o1, ["."%char] | ].
      exists (o2 ++ ["."%char]), (o3 ++ ["."%char]).
      split; [norm_app; reflexivity | ]. split; [now exists o2, ["."%char] | ].
      exists (o3 ++ ["."%char]), [].
      split; [now rewrite app_nil_r | ]. split; [now exists o3, ["."%char] | reflexivity].
    + exists o4, sfx. split; [reflexivity | ]. split; [assumption | ].
      destruct Hsfx as [-> | (e & -> & He)]; [now left | right].
      now exists ["/"%char], e.
Qed.

(** ** Running [parse] on what the pattern accepts *)

Lemma is_digit_dot : strconv.is_digit "." = false.
Proof. reflexivity. Qed.

Lemma is_digit_slash : strconv.is_digit "/" = false.
Proof. reflexivity. Qed.

Lemma dotted_no_slash (o1 o2 o3 o4 : gostring) :
  digit_string o1 = true -> digit_string o2 = true ->
  digit_string o3 = true -> digit_string o4 = true ->
  ~ In "/"%char (dotted o1 o2 o3 o4).
Proof.
  intros H1 H2 H3 H4. unfold dotted.
  pose proof (digit_string_not_in _ _ H1 is_digit_slash).
  pose proof (digit_string_not_in _ _ H2 is_digit_slash).
  pose proof (digit_string_not_in _ _ H3 is_digit_slash).
  pose proof (digit_string_not_in _ _ H4 is_digit_slash).
  rewrite !in_app_iff. simpl. rewrite !in_app_iff. simpl.
  rewrite !in_app_iff. simpl.
  intros [? | [? | [? | [? | [? | [? | ?]]]]]];
    try tauto; discriminate.
Qed.

Lemma Split_dotted (o1 o2 o3 o4 : gostring) :
  digit_string o1 = true -> digit_string o2 = true ->
  digit_string o3 = true -> digit_string o4 = true ->
  strings.Split (dotted o1 o2 o3 o4) "." = [o1; o2; o3; o4].
Proof.
  intros H1 H2 H3 H4. unfold dotted.
  rewrite !Split_app, Split_nosep;
    auto using digit_string_not_in, is_digit_dot.
Qed.

Lemma octets_four (o1 o2 o3 o4 : gostring) (v1 v2 v3 v4 : Z) :
  strconv.Atoi o1 = Ok v1 -> strconv.Atoi o2 = Ok v2 ->
  strconv.Atoi o3 = Ok v3 -> strconv.Atoi o4 = Ok v4 ->
  octets 4 0 [o1; o2; o3; o4] 0 = Ok (pack v1 v2 v3 v4).
Proof.
  intros H1 H2 H3 H4. cbn [octets index nth_error bind].
  rewrite H1. cbn [bind]. rewrite H2. cbn [bind]. rewrite H3. cbn [bind].
  rewrite H4. reflexivity.
Qed.

Section Parse.

Variables (o1 o2 o3 o4 : gostring) (v1 v2 v3 v4 : Z).
Hypothesis D1 : digit_string o1 = true.
Hypothesis D2 : digit_string o2 = true.
Hypothesis D3 : digit_string o3 = true.
Hypothesis D4 : digit_string o4 = true.
Hypothesis A1 : strconv.Atoi o1 = Ok v1.
Hypothesis A2 : strconv.Atoi o2 = Ok v2.
Hypothesis A3 : strconv.Atoi o3 = Ok v3.
Hypothesis A4 : strconv.Atoi o4 = Ok v4.

Lemma parse_dotted (i : IPv4CIDR) (standardize : bool) :
  parse i (dotted o1 o2 o3 o4) standardize
  = build (pack v1 v2 v3 v4) 32 standardize.
Proof.
  unfold parse.
  rewrite Split_nosep by (apply dotted_no_slash; assumption).
  cbn [List.length Nat.eqb index nth_error bind].
  rewrite Split_dotted by assumption.
  rewrite (octets_four _ _ _ _ _ _ _ _ A1 A2 A3 A4). reflexivity.
Qed.

Lemma parse_dotted_slash (i : IPv4CIDR) (e : gostring) (m : Z)
    (standardize : bool) :
  digit_string e = true -> strconv.Atoi e = Ok m ->
  parse i (dotted o1 o2 o3 o4 ++ "/"%char :: e) standardize
  = build (pack v1 v2 v3 v4) (uint8 m) standardize.
Proof.
  intros De Ae. unfold parse.
  rewrite Split_app by (apply dotted_no_slash; assumption).
  rewrite Split_nosep by (apply digit_string_not_in with (1 := De);
                          reflexivity).
  cbn [List.length Nat.eqb index nth_error bind].
  rewrite Ae. cbn [bind].
  rewrite Split_dotted by assumption.
  rewrite (octets_four _ _ _ _ _ _ _ _ A1 A2 A3 A4). reflexivity.
Qed.

End Parse.

(** [NewIPv4CIDR] on any accepted input: the address is read from the four
    octets, the mask from the suffix (32 without one), and the block is
    built from them. *)
Lemma NewIPv4CIDR_accepts (IP : gostring) (standardize : bool) :
  regexp.Match consts.IPv4CIDRRegex IP = true ->
  exists v1 v2 v3 v4 m,
    0 <= v1 <= 255 /\ 0 <= v2 <= 255 /\ 0 <= v3 <= 255 /\ 0 <= v4 <= 255 /\
    0 <= m <= 32 /\
    NewIPv4CIDR IP standardize = build (pack v1 v2 v3 v4) m standardize.
Proof.
  intros HM. unfold NewIPv4CIDR. rewrite HM. cbn [negb].
  apply Match_spec, IPv4CIDRRegex_shape in HM
    as (o1 & o2 & o3 & o4 & sfx & -> & Ho1 & Ho2 & Ho3 & Ho4 & Hsfx).
  apply octet_number in Ho1, Ho2, Ho3, Ho4.
  pose proof (number_upto_digits _ _ _ Ho1) as D1.
  pose proof (number_upto_digits _ _ _ Ho2) as D2.
  pose proof (number_upto_digits _ _ _ Ho3) as D3.
  pose proof (number_upto_digits _ _ _ Ho4) as D4.
  apply number_upto_Atoi in Ho1 as (v1 & A1 & R1), Ho2 as (v2 & A2 & R2),
      Ho3 as (v3 & A3 & R3), Ho4 as (v4 & A4 & R4).
  destruct Hsfx as [-> | (e & -> & He)].
  - exists v1, v2, v3, v4, 32. rewrite app_nil_r.
    rewrite (parse_dotted _ _ _ _ _ _ _ _ D1 D2 D3 D4 A1 A2 A3 A4).
    repeat split; lia.
  - apply prefix_number in He.
    pose proof (number_upto_digits _ _ _ He) as De.
    apply number_upto_Atoi in He as (m & Ae & Rm).
    exists v1, v2, v3, v4, m.
    rewrite (parse_dotted_slash _ _ _ _ _ _ _ _ D1 D2 D3 D4 A1 A2 A3 A4
               _ e m standardize De Ae).
    replace (uint8 m) with m by (unfold uint8; rewrite Z.mod_small; lia).
    repeat split; lia.
Qed.

(** ** Masks and range lengths *)

(** A property checked on every number below [n] holds for each. *)
Lemma forall_upto (P : Z -> bool) (n : nat) :
  forallb P (map Z.of_nat (seq 0 n)) = true ->
  forall m, 0 <= m < Z.of_nat n -> P m = true.
Proof.
  intros H m Hm. rewrite forallb_forall in H. apply H.
  apply in_map_iff. exists (Z.to_nat m). split; [lia | ].
  apply in_seq. lia.
Qed.

Lemma GetNetmask_closed (k : Z) :
  0 <= k <= 32 -> utils.GetNetmask k = 2 ^ 32 - 2 ^ (32 - k).
Proof.
  intros Hk. apply Z.eqb_eq.
  apply (forall_upto (fun k => utils.GetNetmask k =? 2 ^ 32 - 2 ^ (32 - k)) 33);
    [vm_compute; reflexivity | lia].
Qed.

Lemma GetCIDRRangeLength_closed (k : Z) :
  0 <= k <= 32 -> utils.GetCIDRRangeLength k = 2 ^ (32 - k) mod 2 ^ 32.
Proof.
  intros Hk. apply Z.eqb_eq.
  apply (forall_upto
           (fun k => utils.GetCIDRRangeLength k =? 2 ^ (32 - k) mod 2 ^ 32) 33);
    [vm_compute; reflexivity | lia].
Qed.

Lemma GetCIDRRangeLength_pos (k : Z) :
  1 <= k <= 32 -> utils.GetCIDRRangeLength k = 2 ^ (32 - k).
Proof.
  intros Hk. rewrite GetCIDRRangeLength_closed by lia.
  apply Z.mod_small. split; [apply Z.pow_nonneg; lia | ].
  apply Z.pow_lt_mono_r; lia.
Qed.

Lemma GetNetmask_testbit (k i : Z) :
  0 <= k <= 32 -> 0 <= i ->
  Z.testbit (utils.GetNetmask k) i = (32 - k <=? i) && (i <? 32).
Proof.
  intros Hk Hi. rewrite GetNetmask_closed by assumption.
  replace (2 ^ 32 - 2 ^ (32 - k)) with (Z.shiftl (Z.ones k) (32 - k)).
  - rewrite Z.shiftl_spec by assumption.
    destruct (Z.leb_spec (32 - k) i) as [Hle | Hlt].
    + rewrite Z.testbit_ones_nonneg by lia.
      destruct (Z.ltb_spec (i - (32 - k)) k), (Z.ltb_spec i 32);
        try reflexivity; lia.
    + now rewrite Z.testbit_neg_r by lia.
  - rewrite Z.shiftl_mul_pow2, Z.ones_equiv by lia.
    unfold Z.pred. rewrite Z.mul_add_distr_r, <- Z.pow_add_r by lia.
    replace (k + (32 - k)) with 32 by lia. lia.
Qed.

(** The new netmask of [Split] is the netmask of the next prefix length
    (and stays all ones once it is). *)
Lemma Split_netmask (k : Z) :
  0 <= k <= 32 ->
  Z.lor (shr32 (utils.GetNetmask k) 1) consts.HighestBitSet
  = utils.GetNetmask (Z.min (k + 1) 32).
Proof.
  intros Hk. apply Z.eqb_eq.
  apply (forall_upto
           (fun k => Z.lor (shr32 (utils.GetNetmask k) 1) consts.HighestBitSet
                     =? utils.GetNetmask (Z.min (k + 1) 32)) 33);
    [vm_compute; reflexivity | lia].
Qed.

(** The bit that tells the upper half from the lower one. *)
Lemma Split_bit (k : Z) :
  0 <= k <= 31 ->
  Z.lxor (utils.GetNetmask (k + 1)) (utils.GetNetmask k) = 2 ^ (31 - k).
Proof.
  intros Hk. apply Z.eqb_eq.
  apply (forall_upto
           (fun k => Z.lxor (utils.GetNetmask (k + 1)) (utils.GetNetmask k)
                     =? 2 ^ (31 - k)) 32);
    [vm_compute; reflexivity | lia].
Qed.

Lemma land_eq_iff (a m : Z) :
  Z.land a m = a <->
  forall i, 0 <= i -> Z.testbit a i = true -> Z.testbit m i = true.
Proof.
  split.
  - intros H i Hi Ha. rewrite <- H, Z.land_spec in Ha.
    now apply andb_true_iff in Ha.
  - intros H. apply Z.bits_inj'. intros i Hi. rewrite Z.land_spec.
    destruct (Z.testbit a i) eqn:Ha; [ | reflexivity].
    now rewrite (H i Hi Ha).
Qed.

(** An address that is the first of its /k range is the first of every
    smaller range that starts there. *)
Lemma standard_mono (a k k' : Z) :
  0 <= k <= k' -> k' <= 32 ->
  Z.land a (utils.GetNetmask k) = a -> Z.land a (utils.GetNetmask k') = a.
Proof.
  intros Hk Hk'. rewrite !land_eq_iff. intros H i Hi Ha.
  specialize (H i Hi Ha). rewrite GetNetmask_testbit in * by lia.
  apply andb_true_iff in H as (H1 & H2). apply Z.leb_le in H1.
  rewrite H2, andb_true_r. apply Z.leb_le. lia.
Qed.

(** In a standard /k address the bit below the prefix is clear. *)
Lemma standard_bit_clear (a k : Z) :
  0 <= k <= 31 ->
  Z.land a (utils.GetNetmask k) = a -> Z.land a (2 ^ (31 - k)) = 0.
Proof.
  intros Hk H. apply Z.bits_inj'. intros i Hi.
  rewrite Z.land_spec, Z.bits_0, Z.pow2_bits_eqb by lia.
  destruct (Z.eqb_spec (31 - k) i) as [<- | Hne];
    [ | now rewrite andb_false_r].
  rewrite andb_true_r. destruct (Z.testbit a (31 - k)) eqn:Ha; [ | reflexivity].
  rewrite land_eq_iff in H. specialize (H _ Hi Ha).
  rewrite GetNetmask_testbit in H by lia.
  apply andb_true_iff in H as (H1 & _). apply Z.leb_le in H1. lia.
Qed.

(** A standard /k address is a multiple of the range length below 2^32
    when it is a uint32. *)
Lemma standard_upper_bound (a k : Z) :
  0 <= k <= 32 -> 0 <= a < 2 ^ 32 ->
  Z.land a (utils.GetNetmask k) = a -> a + 2 ^ (32 - k) <= 2 ^ 32.
Proof.
  intros Hk Ha H.
  assert (Hmod : a mod 2 ^ (32 - k) = 0).
  { apply Z.bits_inj'. intros i Hi.
    rewrite Z.bits_0, Z.testbit_mod_pow2 by lia.
    destruct (Z.ltb_spec i (32 - k)) as [Hlt | Hge]; [ | reflexivity].
    simpl. destruct (Z.testbit a i) eqn:Hb; [ | reflexivity].
    rewrite land_eq_iff in H. specialize (H _ Hi Hb).
    rewrite GetNetmask_testbit in H by lia.
    apply andb_true_iff in H as (H1 & _). apply Z.leb_le in H1. lia. }
  assert (Hp : 0 < 2 ^ (32 - k)) by (apply Z.pow_pos_nonneg; lia).
  pose proof (Z.div_mod a (2 ^ (32 - k)) ltac:(lia)) as Hdm.
  rewrite Hmod, Z.add_0_r in Hdm.
  assert (H32 : 2 ^ 32 = 2 ^ (32 - k) * 2 ^ k).
  { rewrite <- Z.pow_add_r by lia. f_equal. lia. }
  assert (a / 2 ^ (32 - k) < 2 ^ k).
  { apply Z.div_lt_upper_bound; lia. }
  nia.
Qed.

(** ** Blocks *)

Lemma build_Ok (a m : Z) (standardize : bool) (b : IPv4CIDR) :
  build a m standardize = Ok b ->
  mask b = m /\ netmask b = utils.GetNetmask m /\
  rangeLength b = utils.GetCIDRRangeLength m /\
  ip b = Z.land a (utils.GetNetmask m) /\
  Z.land (ip b) (netmask b) = ip b.
Proof.
  unfold build, utils.CheckStandardized, utils.Standardize.
  destruct standardize; cbn [bind].
  - intros [= <-]. cbn [ip mask netmask rangeLength].
    repeat split. now rewrite <- Z.land_assoc, Z.land_diag.
  - destruct (Z.eqb_spec a (Z.land a (utils.GetNetmask m))) as [He | Hne];
      cbn [bind]; [ | discriminate].
    intros [= <-]. cbn [ip mask netmask rangeLength].
    repeat split; congruence.
Qed.

Lemma build_standardize (a m : Z) :
  build a m true
  = Ok {| ip := Z.land a (utils.GetNetmask m); mask := m;
          netmask := utils.GetNetmask m;
          rangeLength := utils.GetCIDRRangeLength m |}.
Proof. reflexivity. Qed.

Lemma build_check (a m : Z) :
  build a m false
  = if a =? Z.land a (utils.GetNetmask m)
    then Ok {| ip := a; mask := m; netmask := utils.GetNetmask m;
               rangeLength := utils.GetCIDRRangeLength m |}
    else Err NonStandardizedIPError.
Proof.
  unfold build, utils.CheckStandardized, utils.Standardize.
  now destruct (a =? Z.land a (utils.GetNetmask m)).
Qed.

Lemma NewIPv4CIDR_Ok_Match (IP : gostring) (standardize : bool) (b : IPv4CIDR) :
  NewIPv4CIDR IP standardize = Ok b ->
  regexp.Match consts.IPv4CIDRRegex IP = true.
Proof.
  unfold NewIPv4CIDR.
  destruct (regexp.Match consts.IPv4CIDRRegex IP); [reflexivity | discriminate].
Qed.

Lemma GetNetmask_range (k : Z) :
  0 <= k <= 32 -> 0 <= utils.GetNetmask k < 2 ^ 32.
Proof.
  intros Hk. rewrite GetNetmask_closed by assumption.
  assert (0 < 2 ^ (32 - k) <= 2 ^ 32); [ | lia].
  split; [apply Z.pow_pos_nonneg; lia | apply Z.pow_le_mono_r; lia].
Qed.

Lemma standard_range (a m : Z) :
  0 <= m < 2 ^ 32 -> Z.land a m = a -> 0 <= a < 2 ^ 32.
Proof.
  intros Hm H.
  assert (Ha : 0 <= a).
  { rewrite <- H. apply Z.land_nonneg. lia. }
  split; [assumption | ].
  replace a with (a mod 2 ^ 32); [apply Z.mod_pos_bound; lia | ].
  apply Z.bits_inj'. intros i Hi. rewrite Z.testbit_mod_pow2 by lia.
  destruct (Z.ltb_spec i 32) as [Hlt | Hge]; [reflexivity | ].
  simpl. destruct (Z.testbit a i) eqn:Hb; [ | reflexivity].
  rewrite land_eq_iff in H. specialize (H _ Hi Hb).
  rewrite <- (Z.mod_small m (2 ^ 32)), Z.testbit_mod_pow2 in H by lia.
  destruct (Z.ltb_spec i 32); [lia | discriminate].
Qed.

(** What [NewIPv4CIDR] returns. *)
Lemma NewIPv4CIDR_Ok (IP : gostring) (standardize : bool) (b : IPv4CIDR) :
  NewIPv4CIDR IP standardize = Ok b ->
  0 <= mask b <= 32 /\
  netmask b = utils.GetNetmask (mask b) /\
  rangeLength b = utils.GetCIDRRangeLength (mask b) /\
  0 <= ip b < 2 ^ 32 /\
  Z.land (ip b) (netmask b) = ip b.
Proof.
  intros H. pose proof (NewIPv4CIDR_Ok_Match _ _ _ H) as HM.
  destruct (NewIPv4CIDR_accepts IP standardize HM)
    as (v1 & v2 & v3 & v4 & m & _ & _ & _ & _ & Hm & Hb).
  rewrite H in Hb. symmetry in Hb.
  apply build_Ok in Hb as (Hmask & Hnm & Hrl & _ & Hstd).
  subst m. repeat split; try assumption; try lia.
  - apply (standard_range (ip b) (netmask b)); [ | assumption].
    rewrite Hnm. now apply GetNetmask_range.
  - apply (standard_range (ip b) (netmask b)); [ | assumption].
    rewrite Hnm. now apply GetNetmask_range.
Qed.

Lemma NewIPv4CIDR_inv (IP : gostring) (standardize : bool) (b : IPv4CIDR) :
  NewIPv4CIDR IP standardize = Ok b -> block_inv b.
Proof.
  intros H. apply NewIPv4CIDR_Ok in H as (Hm & Hnm & Hrl & Hip & Hstd).
  exists (mask b). repeat split; try assumption; try lia.
  destruct (Z.eq_dec (mask b) 0) as [H0 | Hn0].
  - left. rewrite Hrl, H0. reflexivity.
  - right. repeat split; [lia | ].
    rewrite Hrl. apply GetCIDRRangeLength_pos. lia.
Qed.

Lemma Split_Ok (i lo hi : IPv4CIDR) :
  Split i = Ok (lo, hi) ->
  rangeLength i <> 1 /\
  lo = {| ip := ip i; mask := uint8 (mask i + 1);
          rangeLength := rangeLength i / 2;
          netmask := Z.lor (shr32 (netmask i) 1) consts.HighestBitSet |} /\
  hi = {| ip := Z.lor (ip i)
                  (Z.lxor (Z.lor (shr32 (netmask i) 1) consts.HighestBitSet)
                     (netmask i));
          mask := uint8 (mask i + 1);
          rangeLength := rangeLength i / 2;
          netmask := Z.lor (shr32 (netmask i) 1) consts.HighestBitSet |}.
Proof.
  unfold Split. destruct (Z.eqb_spec (rangeLength i) 1); [discriminate | ].
  intros [= <- <-]. auto.
Qed.

(** The address of the upper half, for a block in standard form. *)
Lemma Split_upper_ip (a k : Z) :
  0 <= k <= 32 -> Z.land a (utils.GetNetmask k) = a ->
  Z.lor a (Z.lxor (utils.GetNetmask (Z.min (k + 1) 32)) (utils.GetNetmask k))
  = if k =? 32 then a else a + 2 ^ (31 - k).
Proof.
  intros Hk Hstd. destruct (Z.eqb_spec k 32) as [-> | Hne].
  - change (Z.min (32 + 1) 32) with 32.
    now rewrite Z.lxor_nilpotent, Z.lor_0_r.
  - rewrite Z.min_l, Split_bit by lia.
    apply Z.or_to_plus. apply standard_bit_clear; [lia | assumption].
Qed.

Lemma Split_inv (i lo hi : IPv4CIDR) :
  block_inv i -> Split i = Ok (lo, hi) -> block_inv lo /\ block_inv hi.
Proof.
  intros (k & Hk & Hnm & Hip & Hstd & Hrl) HS.
  apply Split_Ok in HS as (Hne & -> & ->).
  rewrite Hnm in *. rewrite Split_netmask by assumption.
  assert (Hrl' :
    rangeLength i / 2 = 0 \/
    1 <= Z.min (k + 1) 32 /\ uint8 (mask i + 1) = Z.min (k + 1) 32 /\
    rangeLength i / 2 = 2 ^ (32 - Z.min (k + 1) 32)).
  { destruct Hrl as [-> | (Hk1 & Hmk & Hr)]; [now left | right].
    assert (k <> 32) by (intros ->; now rewrite Hr in Hne).
    rewrite Z.min_l by lia. rewrite Hmk, Hr. unfold uint8.
    rewrite Z.mod_small by lia. repeat split; try lia.
    replace (32 - k) with (Z.succ (32 - (k + 1))) by lia.
    rewrite Z.pow_succ_r by lia. rewrite Z.mul_comm, Z.div_mul; lia. }
  assert (Hlo : Z.land (ip i) (utils.GetNetmask (Z.min (k + 1) 32)) = ip i).
  { apply standard_mono with (k := k); [lia | lia | assumption]. }
  split.
  - exists (Z.min (k + 1) 32). cbn [ip mask netmask rangeLength].
    repeat split; try assumption; lia.
  - exists (Z.min (k + 1) 32). cbn [ip mask netmask rangeLength].
    rewrite Split_upper_ip by assumption.
    destruct (Z.eqb_spec k 32) as [-> | Hk32].
    + repeat split; try assumption; lia.
    + pose proof (standard_upper_bound _ _ Hk Hip Hstd) as Hub.
      assert (Hpow : 2 ^ (32 - k) = 2 * 2 ^ (31 - k)).
      { replace (32 - k) with (Z.succ (31 - k)) by lia.
        apply Z.pow_succ_r. lia. }
      assert (0 < 2 ^ (31 - k)) by (apply Z.pow_pos_nonneg; lia).
      repeat split; try assumption; try lia.
      rewrite <- Z.or_to_plus
        by (apply standard_bit_clear; [lia | assumption]).
      rewrite Z.min_l by lia.
      apply land_eq_iff. intros j Hj. rewrite Z.lor_spec, orb_true_iff.
      rewrite GetNetmask_testbit by lia.
      intros [Hb | Hb].
      * rewrite land_eq_iff in Hstd. specialize (Hstd _ Hj Hb).
        rewrite GetNetmask_testbit in Hstd by lia.
        apply andb_true_iff in Hstd as (H1 & H2). apply Z.leb_le in H1.
        rewrite H2, andb_true_r. apply Z.leb_le. lia.
      * rewrite Z.pow2_bits_eqb in Hb by lia. apply Z.eqb_eq in Hb.
        subst j. apply andb_true_iff. split; [apply Z.leb_le | apply Z.ltb_lt]; lia.
Qed.

Lemma Reachable_inv (b : IPv4CIDR) : Reachable b -> block_inv b.
Proof.
  induction 1 as [IP standardize b H | i lo hi _ IH HS | i lo hi _ IH HS].
  - exact (NewIPv4CIDR_inv _ _ _ H).
  - exact (proj1 (Split_inv _ _ _ IH HS)).
  - exact (proj2 (Split_inv _ _ _ IH HS)).
Qed.

(** ** Writing an address and reading it back *)

Lemma Itoa_octet (v : Z) :
  0 <= v <= 255 ->
  regexp.Match consts.octet (strconv.Itoa v) = true /\
  digit_string (strconv.Itoa v) = true /\
  strconv.Atoi (strconv.Itoa v) = Ok v.
Proof.
  intros Hv.
  pose proof (forall_upto
    (fun v => regexp.Match consts.octet (strconv.Itoa v)
              && digit_string (strconv.Itoa v)
              && match strconv.Atoi (strconv.Itoa v) with
                 | Ok w => w =? v
                 | _ => false
                 end) 256 ltac:(vm_compute; reflexivity) v ltac:(lia)) as H.
  cbv beta in H. rewrite !andb_true_iff in H. destruct H as ((H1 & H2) & H3).
  repeat split; try assumption.
  destruct (strconv.Atoi (strconv.Itoa v)) as [w | | ]; try discriminate.
  apply Z.eqb_eq in H3. now subst.
Qed.

Lemma Itoa_prefix (m : Z) :
  0 <= m <= 32 ->
  regexp.Match consts.prefix (strconv.Itoa m) = true /\
  digit_string (strconv.Itoa m) = true /\
  strconv.Atoi (strconv.Itoa m) = Ok m.
Proof.
  intros Hm.
  pose proof (forall_upto
    (fun v => regexp.Match consts.prefix (strconv.Itoa v)
              && digit_string (strconv.Itoa v)
              && match strconv.Atoi (strconv.Itoa v) with
                 | Ok w => w =? v
                 | _ => false
                 end) 33 ltac:(vm_compute; reflexivity) m ltac:(lia)) as H.
  cbv beta in H. rewrite !andb_true_iff in H. destruct H as ((H1 & H2) & H3).
  repeat split; try assumption.
  destruct (strconv.Atoi (strconv.Itoa m)) as [w | | ]; try discriminate.
  apply Z.eqb_eq in H3. now subst.
Qed.

Lemma ConvertIPToString_dotted (a : Z) :
  utils.ConvertIPToString a
  = dotted (strconv.Itoa (byte3 a)) (strconv.Itoa (byte2 a))
      (strconv.Itoa (byte1 a)) (strconv.Itoa (byte0 a)).
Proof.
  unfold utils.ConvertIPToString, dotted.
  cbn [utils.sections strings.Join str list_ascii_of_string app].
  reflexivity.
Qed.

Lemma land_EightBits (x : Z) : 0 <= Z.land x consts.EightBits <= 255.
Proof.
  change consts.EightBits with (Z.ones 8). rewrite Z.land_ones by lia.
  pose proof (Z.mod_pos_bound x (2 ^ 8) ltac:(lia)). lia.
Qed.

Lemma pack_step (x v : Z) :
  0 <= x < 2 ^ 24 -> 0 <= v <= 255 ->
  Z.lor (shl32 x consts.GroupSize) (uint32 v) = x * 256 + v.
Proof.
  intros Hx Hv. unfold shl32, uint32, consts.GroupSize.
  rewrite Z.shiftl_mul_pow2 by lia.
  rewrite !Z.mod_small by lia.
  rewrite Z.or_to_plus; [lia | ].
  rewrite <- Z.shiftl_mul_pow2 by lia.
  rewrite <- (Z.mod_small v (2 ^ 8)) by lia.
  apply Z.bits_inj'. intros i Hi.
  rewrite Z.land_spec, Z.bits_0, Z.testbit_mod_pow2 by lia.
  destruct (Z.ltb_spec i 8) as [Hlt | Hge].
  - rewrite Z.shiftl_spec_low by assumption. reflexivity.
  - now rewrite andb_false_r.
Qed.

Lemma pack_value (v1 v2 v3 v4 : Z) :
  0 <= v1 <= 255 -> 0 <= v2 <= 255 -> 0 <= v3 <= 255 -> 0 <= v4 <= 255 ->
  pack v1 v2 v3 v4 = ((v1 * 256 + v2) * 256 + v3) * 256 + v4.
Proof.
  intros H1 H2 H3 H4. unfold pack.
  rewrite (pack_step 0 v1) by lia.
  rewrite (pack_step _ v2) by lia.
  rewrite (pack_step _ v3) by lia.
  rewrite (pack_step _ v4) by lia.
  lia.
Qed.

Lemma pack_bytes (a : Z) :
  0 <= a < 2 ^ 32 -> pack (byte3 a) (byte2 a) (byte1 a) (byte0 a) = a.
Proof.
  intros Ha.
  rewrite pack_value by apply land_EightBits.
  unfold byte3, byte2, byte1, byte0, shr32, consts.GroupSize.
  change consts.EightBits with (Z.ones 8).
  rewrite !Z.land_ones, !Z.shiftr_div_pow2 by lia.
  change (2 ^ 8) with 256. change (2 ^ 32) with 4294967296 in Ha.
  Z.div_mod_to_equations. lia.
Qed.

(** What [Itoa] writes for a number below 256. *)
Lemma Itoa_decimal (v : Z) :
  0 <= v <= 255 -> strconv.Itoa v = decimal v.
Proof.
  intros Hv.
  pose proof (forall_upto
    (fun v => String.eqb (string_of_list_ascii (strconv.Itoa v))
                (string_of_list_ascii (decimal v)))
    256 ltac:(vm_compute; reflexivity) v ltac:(lia)) as H.
  cbv beta in H. apply String.eqb_eq in H.
  apply (f_equal list_ascii_of_string) in H.
  now rewrite !list_ascii_of_string_of_list_ascii in H.
Qed.

Lemma byte_values (a : Z) :
  byte3 a = a / 2 ^ 24 mod 256 /\ byte2 a = a / 2 ^ 16 mod 256 /\
  byte1 a = a / 2 ^ 8 mod 256 /\ byte0 a = a mod 256.
Proof.
  unfold byte3, byte2, byte1, byte0, shr32, consts.GroupSize.
  change consts.EightBits with (Z.ones 8).
  rewrite !Z.land_ones, !Z.shiftr_div_pow2 by lia.
  rewrite !Z.div_div by lia.
  repeat split; reflexivity.
Qed.

(** [ConvertIPToString] writes the dotted quad. *)
Lemma ConvertIPToString_quad (a : Z) :
  utils.ConvertIPToString a = dotted_quad a.
Proof.
  rewrite ConvertIPToString_dotted. unfold dotted_quad.
  destruct (byte_values a) as (H3 & H2 & H1 & H0).
  rewrite (Itoa_decimal (byte3 a)), (Itoa_decimal (byte2 a)),
    (Itoa_decimal (byte1 a)), (Itoa_decimal (byte0 a))
    by apply land_EightBits.
  now rewrite H3, H2, H1, H0.
Qed.

(** ** Properties of the specification *)

Lemma block_10_10_0_0_26_new :
  NewIPv4CIDR (str "10.10.0.0/26") false = Ok block_10_10_0_0_26.
Proof. vm_compute. reflexivity. Qed.

Lemma block_0_0_0_0_0_new :
  NewIPv4CIDR (str "0.0.0.0/0") false = Ok block_0_0_0_0_0.
Proof. vm_compute. reflexivity. Qed.

(** C1: every block that [NewIPv4CIDR] returns, whatever the standardize
    flag, has [ip AND netmask = ip]; and when [Split] succeeds on a block
    that was built this way (directly or by earlier splits), both halves
    have it too, with their new netmask. *)
Theorem C1_standard_form :
  (forall IP standardize b,
      NewIPv4CIDR IP standardize = Ok b ->
      Z.land (ip b) (netmask b) = ip b) /\
  (forall i lo hi,
      Reachable i -> Split i = Ok (lo, hi) ->
      Z.land (ip lo) (netmask lo) = ip lo /\
      Z.land (ip hi) (netmask hi) = ip hi).
Proof.
  split.
  - intros IP standardize b H. now apply NewIPv4CIDR_Ok in H.
  - intros i lo hi Hi HS. apply Reachable_inv in Hi.
    destruct (Split_inv _ _ _ Hi HS)
      as ((k1 & _ & _ & _ & H1 & _) & (k2 & _ & _ & _ & H2 & _)).
    now split.
Qed.

(** C2, at the block of 0.0.0.0/0: its range length is the wrapped-around
    0, [Split] succeeds, and the upper half starts at 128.0.0.0 while the
    lower half starts at 0.0.0.0 with a range length of 0, so the upper
    address is not the lower address plus the lower range length. *)
Theorem C2_split_slash0 :
  exists lo hi,
    NewIPv4CIDR (str "0.0.0.0/0") false = Ok block_0_0_0_0_0 /\
    Split block_0_0_0_0_0 = Ok (lo, hi) /\
    ip lo = 0 /\ rangeLength lo = 0 /\ mask lo = 1 /\
    ip hi = 2 ^ 31 /\ rangeLength hi = 0 /\
    (ip hi =? ip lo + rangeLength lo) = false /\
    utils.GetCIDRRangeLength (mask lo) = 2 ^ 31.
Proof.
  eexists. eexists. split; [exact block_0_0_0_0_0_new | ].
  split; [vm_compute; reflexivity | ].
  vm_compute. repeat split; reflexivity.
Qed.

(** C3, at the block of 0.0.0.0/0: the range length is 0, so asking for
    the first address fails with the out-of-range error, while [GetIP]
    returns 0.0.0.0. *)
Theorem C3_first_of_slash0 :
  NewIPv4CIDR (str "0.0.0.0/0") false = Ok block_0_0_0_0_0 /\
  GetIPInRange block_0_0_0_0_0 1 false = Err RequestedIPExceedsCIDRRangeError /\
  GetIP block_0_0_0_0_0 = str "0.0.0.0".
Proof.
  split; [exact block_0_0_0_0_0_new | ].
  split; vm_compute; reflexivity.
Qed.


Lemma GetCIDRRangeLength_one (k : Z) :
  0 <= k <= 32 -> (utils.GetCIDRRangeLength k = 1 <-> k = 32).
Proof.
  intros Hk.
  pose proof (forall_upto
    (fun k => Bool.eqb (utils.GetCIDRRangeLength k =? 1) (k =? 32)) 33
    ltac:(vm_compute; reflexivity) k ltac:(lia)) as H.
  cbv beta in H. apply Bool.eqb_prop in H.
  rewrite <- Z.eqb_eq, H. apply Z.eqb_eq.
Qed.

(** C7: on a block that [NewIPv4CIDR] returned, [Split] fails with the
    no-more-splitting error exactly when the range length is 1, which is
    exactly when the mask is 32; otherwise it returns two blocks; it has no
    other error and never panics. *)
Theorem C7_split_errors (IP : gostring) (standardize : bool) (b : IPv4CIDR) :
  NewIPv4CIDR IP standardize = Ok b ->
  (Split b = Err NoMoreSplittingPossibleError <-> rangeLength b = 1) /\
  (rangeLength b = 1 <-> mask b = 32) /\
  (rangeLength b <> 1 -> exists lo hi, Split b = Ok (lo, hi)) /\
  (forall e, Split b = Err e -> e = NoMoreSplittingPossibleError) /\
  (forall e, Split b = Err e -> rangeLength b = 1).
Proof.
  intros H. apply NewIPv4CIDR_Ok in H as (Hm & _ & Hrl & _ & _).
  unfold Split. destruct (Z.eqb_spec (rangeLength b) 1) as [H1 | H1].
  - repeat split; try tauto; try congruence.
    + intros _. apply (GetCIDRRangeLength_one _ Hm). congruence.
  - repeat split; try tauto; try discriminate.
    + intros H32. rewrite Hrl. now apply GetCIDRRangeLength_one.
    + intros _. eauto.
Qed.

Lemma C7_split_errors_witness :
  NewIPv4CIDR (str "10.10.0.0/26") false = Ok block_10_10_0_0_26 /\
  ((Split block_10_10_0_0_26 = Err NoMoreSplittingPossibleError
    <-> rangeLength block_10_10_0_0_26 = 1) /\
   (rangeLength block_10_10_0_0_26 = 1 <-> mask block_10_10_0_0_26 = 32) /\
   (rangeLength block_10_10_0_0_26 <> 1 ->
    exists lo hi, Split block_10_10_0_0_26 = Ok (lo, hi)) /\
   (forall e, Split block_10_10_0_0_26 = Err e ->
              e = NoMoreSplittingPossibleError) /\
   (forall e, Split block_10_10_0_0_26 = Err e ->
              rangeLength block_10_10_0_0_26 = 1)).
Proof.
  split; [vm_compute; reflexivity | ].
  apply (C7_split_errors (str "10.10.0.0/26") false).
  vm_compute. reflexivity.
Defined.

(** C9: [GetIPInRange] does not refuse [n = 0]: on any block (its range
    length, a uint32, is never negative) [GetIPInRange 0 false] returns
    without error the dotted quad of the address minus one, modulo 2^32:
    the four groups of eight bits of that number in decimal, joined by
    dots, which is also what [ConvertIPToString] writes for it. *)
Theorem C9_zeroth_address (b : IPv4CIDR) :
  0 <= rangeLength b ->
  GetIPInRange b 0 false = Ok (dotted_quad ((ip b - 1) mod 2 ^ 32)) /\
  GetIPInRange b 0 false
  = Ok (utils.ConvertIPToString ((ip b - 1) mod 2 ^ 32)).
Proof.
  intros H. rewrite <- ConvertIPToString_quad.
  assert (He : GetIPInRange b 0 false
               = Ok (utils.ConvertIPToString ((ip b - 1) mod 2 ^ 32))).
  { unfold GetIPInRange.
    destruct (Z.ltb_spec (rangeLength b) 0) as [Hlt | _]; [lia | ].
    unfold uint32. rewrite Z.add_0_r, Zminus_mod_idemp_l. reflexivity. }
  now split.
Qed.

Lemma C9_zeroth_address_witness :
  0 <= rangeLength block_0_0_0_0_0 /\
  GetIPInRange block_0_0_0_0_0 0 false = Ok (str "255.255.255.255").
Proof.
  split; [vm_compute; discriminate | ].
  exact (proj1 (C9_zeroth_address block_0_0_0_0_0
                  ltac:(vm_compute; discriminate))).
Defined.

(** How [NewIPv4CIDR] reads an input made of four octets of the pattern
    and a suffix of the pattern. *)
Lemma NewIPv4CIDR_dotted (o1 o2 o3 o4 sfx : gostring) (standardize : bool) :
  matches consts.octet o1 -> matches consts.octet o2 ->
  matches consts.octet o3 -> matches consts.octet o4 ->
  (sfx = [] \/ exists e, sfx = "/"%char :: e /\ matches consts.prefix e) ->
  exists v1 v2 v3 v4 m,
    strconv.Atoi o1 = Ok v1 /\ strconv.Atoi o2 = Ok v2 /\
    strconv.Atoi o3 = Ok v3 /\ strconv.Atoi o4 = Ok v4 /\
    0 <= v1 <= 255 /\ 0 <= v2 <= 255 /\ 0 <= v3 <= 255 /\ 0 <= v4 <= 255 /\
    0 <= m <= 32 /\
    match sfx with
    | [] => m = 32
    | _ :: e => strconv.Atoi e = Ok m
    end /\
    NewIPv4CIDR (dotted o1 o2 o3 o4 ++ sfx) standardize
    = build (pack v1 v2 v3 v4) m standardize.
Proof.
  intros Ho1 Ho2 Ho3 Ho4 Hsfx.
  assert (HM : regexp.Match consts.IPv4CIDRRegex (dotted o1 o2 o3 o4 ++ sfx)
               = true).
  { apply Match_spec, IPv4CIDRRegex_shape.
    exists o1, o2, o3, o4, sfx. tauto. }
  unfold NewIPv4CIDR. rewrite HM. cbn [negb].
  apply octet_number in Ho1, Ho2, Ho3, Ho4.
  pose proof (number_upto_digits _ _ _ Ho1) as D1.
  pose proof (number_upto_digits _ _ _ Ho2) as D2.
  pose proof (number_upto_digits _ _ _ Ho3) as D3.
  pose proof (number_upto_digits _ _ _ Ho4) as D4.
  apply number_upto_Atoi in Ho1 as (v1 & A1 & R1), Ho2 as (v2 & A2 & R2),
      Ho3 as (v3 & A3 & R3), Ho4 as (v4 & A4 & R4).
  destruct Hsfx as [-> | (e & -> & He)].
  - exists v1, v2, v3, v4, 32. rewrite app_nil_r.
    rewrite (parse_dotted _ _ _ _ _ _ _ _ D1 D2 D3 D4 A1 A2 A3 A4).
    repeat split; try assumption; lia.
  - apply prefix_number in He.
    pose proof (number_upto_digits _ _ _ He) as De.
    apply number_upto_Atoi in He as (m & Ae & Rm).
    exists v1, v2, v3, v4, m.
    rewrite (parse_dotted_slash _ _ _ _ _ _ _ _ D1 D2 D3 D4 A1 A2 A3 A4
               _ e m standardize De Ae).
    replace (uint8 m) with m by (unfold uint8; rewrite Z.mod_small; lia).
    repeat split; try assumption; lia.
Qed.

(** Reading back what [ConvertIPToString] and [Itoa] write. *)
Lemma NewIPv4CIDR_written (a m : Z) (standardize : bool) :
  0 <= a < 2 ^ 32 -> 0 <= m <= 32 ->
  NewIPv4CIDR (utils.ConvertIPToString a) standardize
  = build a 32 standardize /\
  NewIPv4CIDR (utils.ConvertIPToString a ++ str "/" ++ strconv.Itoa m)
    standardize
  = build a m standardize.
Proof.
  intros Ha Hm. rewrite ConvertIPToString_dotted.
  destruct (Itoa_octet (byte3 a) (land_EightBits _)) as (M3 & _ & A3).
  destruct (Itoa_octet (byte2 a) (land_EightBits _)) as (M2 & _ & A2).
  destruct (Itoa_octet (byte1 a) (land_EightBits _)) as (M1 & _ & A1).
  destruct (Itoa_octet (byte0 a) (land_EightBits _)) as (M0 & _ & A0).
  destruct (Itoa_prefix m Hm) as (Mm & _ & Am).
  apply Match_spec in M3, M2, M1, M0, Mm.
  split.
  - destruct (NewIPv4CIDR_dotted _ _ _ _ [] standardize M3 M2 M1 M0)
      as (v1 & v2 & v3 & v4 & m' & B3 & B2 & B1 & B0 & _ & _ & _ & _ & _
          & Bm & HN); [now left | ].
    rewrite app_nil_r in HN. rewrite HN.
    rewrite A3 in B3. rewrite A2 in B2. rewrite A1 in B1. rewrite A0 in B0.
    injection B3 as <-. injection B2 as <-. injection B1 as <-.
    injection B0 as <-. subst m'.
    now rewrite pack_bytes.
  - destruct (NewIPv4CIDR_dotted _ _ _ _ (str "/" ++ strconv.Itoa m)
                standardize M3 M2 M1 M0)
      as (v1 & v2 & v3 & v4 & m' & B3 & B2 & B1 & B0 & _ & _ & _ & _ & _
          & Bm & ->).
    { right. exists (strconv.Itoa m). now split. }
    cbn [str list_ascii_of_string app] in Bm.
    rewrite A3 in B3. rewrite A2 in B2. rewrite A1 in B1. rewrite A0 in B0.
    rewrite Am in Bm.
    injection B3 as <-. injection B2 as <-. injection B1 as <-.
    injection B0 as <-. injection Bm as <-.
    now rewrite pack_bytes.
Qed.

(** A block with the netmask and range length of its mask, and a uint32
    address in standard form, is what [NewIPv4CIDR] reads from its
    [ToString]. *)
Lemma ToString_reparse (b : IPv4CIDR) :
  0 <= mask b <= 32 ->
  netmask b = utils.GetNetmask (mask b) ->
  rangeLength b = utils.GetCIDRRangeLength (mask b) ->
  0 <= ip b < 2 ^ 32 ->
  Z.land (ip b) (netmask b) = ip b ->
  NewIPv4CIDR (ToString b) false = Ok b.
Proof.
  intros Hm Hnm Hrl Hip Hstd. unfold ToString. cbn [strings.Join].
  rewrite (proj2 (NewIPv4CIDR_written _ _ false Hip Hm)).
  rewrite build_check, <- Hnm, Hstd, Z.eqb_refl.
  destruct b as [a m nm rl]. cbn [ip mask netmask rangeLength] in *.
  now subst.
Qed.

(** C4: when [NewIPv4CIDR] with standardize = true accepts an input, the
    block is in standard form, [ToString] writes it as its four sections
    and its mask, and [NewIPv4CIDR] with standardize = false on that
    string returns the very same block (the same ip, mask, netmask and
    range length). *)
Theorem C4_round_trip (IP : gostring) (b : IPv4CIDR) :
  NewIPv4CIDR IP true = Ok b ->
  Z.land (ip b) (netmask b) = ip b /\
  ToString b
  = utils.ConvertIPToString (ip b) ++ str "/" ++ strconv.Itoa (mask b) /\
  NewIPv4CIDR (ToString b) false = Ok b.
Proof.
  intros H. apply NewIPv4CIDR_Ok in H as (Hm & Hnm & Hrl & Hip & Hstd).
  split; [assumption | ]. split; [reflexivity | ].
  now apply ToString_reparse.
Qed.

Lemma C4_round_trip_witness :
  NewIPv4CIDR (str "10.10.0.1/26") true = Ok block_10_10_0_0_26 /\
  NewIPv4CIDR (ToString block_10_10_0_0_26) false = Ok block_10_10_0_0_26.
Proof.
  split; [vm_compute; reflexivity | ].
  apply (C4_round_trip (str "10.10.0.1/26")). vm_compute. reflexivity.
Defined.

(** C6: for a block built by [NewIPv4CIDR] or split off such a block, and
    n at least 1 (a uint32): [GetIPInRange n withCIDR] fails exactly when
    n exceeds the range length, and then with the out-of-range error;
    otherwise it returns the dotted quad of the address plus n minus 1
    (a sum that stays below 2^32): its four groups of eight bits in
    decimal, joined by dots, followed by a slash and the mask in decimal
    when withCIDR is set and by nothing when it is not. *)
Theorem C6_nth_address (b : IPv4CIDR) (n : Z) (withCIDR : bool) :
  Reachable b -> 1 <= n < 2 ^ 32 ->
  (GetIPInRange b n withCIDR = Err RequestedIPExceedsCIDRRangeError
   <-> rangeLength b < n) /\
  (forall e, GetIPInRange b n withCIDR = Err e -> rangeLength b < n) /\
  (n <= rangeLength b ->
   0 <= ip b + n - 1 < 2 ^ 32 /\
   GetIPInRange b n withCIDR
   = Ok (dotted_quad (ip b + n - 1)
         ++ (if withCIDR then "/"%char :: decimal (mask b) else [])) /\
   GetIPInRange b n withCIDR
   = Ok (utils.ConvertIPToString (ip b + n - 1)
         ++ (if withCIDR then str "/" ++ strconv.Itoa (mask b) else []))).
Proof.
  intros Hb Hn. apply Reachable_inv in Hb
    as (k & Hk & Hnm & Hip & Hstd & Hrl).
  unfold GetIPInRange.
  destruct (Z.ltb_spec (rangeLength b) n) as [Hlt | Hge].
  - repeat split; try tauto; lia.
  - destruct Hrl as [H0 | (Hk1 & Hmk & Hr)]; [lia | ].
    rewrite Hnm in Hstd.
    pose proof (standard_upper_bound _ _ Hk Hip Hstd) as Hub.
    assert (Hv : uint32 (uint32 (ip b + n) - 1) = ip b + n - 1).
    { unfold uint32. rewrite Zminus_mod_idemp_l.
      apply Z.mod_small. lia. }
    rewrite Hv. split; [ | split].
    + split; [destruct withCIDR; discriminate | lia].
    + intros e. destruct withCIDR; discriminate.
    + intros _. split; [lia | ].
      rewrite <- ConvertIPToString_quad.
      rewrite <- (Itoa_decimal (mask b)) by lia.
      destruct withCIDR; cbn [strings.Join str list_ascii_of_string app].
      * split; reflexivity.
      * rewrite app_nil_r. split; reflexivity.
Qed.

Lemma C6_nth_address_witness :
  GetIPInRange block_10_10_0_0_26 10 true = Ok (str "10.10.0.9/26").
Proof.
  refine (proj1 (proj2 (proj2 (proj2
            (C6_nth_address block_10_10_0_0_26 10 true _ _)) _))).
  - exact (reach_new _ _ _ block_10_10_0_0_26_new).
  - vm_compute. split; [discriminate | reflexivity].
  - vm_compute. discriminate.
Defined.

(** The sections that [parse] finds in an accepted input. *)
Lemma accepted_sections (IP : gostring) :
  regexp.Match consts.IPv4CIDRRegex IP = true ->
  exists o1 o2 o3 o4 rest,
    strings.Split IP "/" = dotted o1 o2 o3 o4 :: rest /\
    strings.Split (dotted o1 o2 o3 o4) "." = [o1; o2; o3; o4] /\
    number_upto 3 255 o1 = true /\ number_upto 3 255 o2 = true /\
    number_upto 3 255 o3 = true /\ number_upto 3 255 o4 = true /\
    (rest = [] \/ exists e, rest = [e] /\ number_upto 2 32 e = true).
Proof.
  intros HM.
  apply Match_spec, IPv4CIDRRegex_shape in HM
    as (o1 & o2 & o3 & o4 & sfx & -> & Ho1 & Ho2 & Ho3 & Ho4 & Hsfx).
  apply octet_number in Ho1, Ho2, Ho3, Ho4.
  pose proof (number_upto_digits _ _ _ Ho1) as D1.
  pose proof (number_upto_digits _ _ _ Ho2) as D2.
  pose proof (number_upto_digits _ _ _ Ho3) as D3.
  pose proof (number_upto_digits _ _ _ Ho4) as D4.
  pose proof (dotted_no_slash _ _ _ _ D1 D2 D3 D4) as Hns.
  pose proof (Split_dotted _ _ _ _ D1 D2 D3 D4) as Hsd.
  destruct Hsfx as [-> | (e & -> & He)].
  - exists o1, o2, o3, o4, []. rewrite app_nil_r, Split_nosep by assumption.
    repeat split; try assumption. now left.
  - apply prefix_number in He.
    pose proof (number_upto_digits _ _ _ He) as De.
    exists o1, o2, o3, o4, [e].
    rewrite Split_app by assumption.
    rewrite Split_nosep
      by (apply digit_string_not_in with (1 := De); reflexivity).
    repeat split; try assumption. right. now exists e.
Qed.

Lemma build_result (a m : Z) (standardize : bool) :
  (exists b, build a m standardize = Ok b) \/
  (standardize = false /\ build a m standardize = Err NonStandardizedIPError).
Proof.
  destruct standardize.
  - left. rewrite build_standardize. eauto.
  - rewrite build_check.
    destruct (a =? Z.land a (utils.GetNetmask m)); [left; eauto | right; auto].
Qed.

(** C10: on an input that matches the pattern, the part before the slash
    splits at the dots into exactly four sections, each of which [Atoi]
    reads as a number of 0 to 255; there is either no slash, or one slash
    followed by a section that [Atoi] reads as a number of 0 to 32; and
    [parse] either returns a block or fails with the non-standardized
    error (only when standardize is false): it returns no conversion
    error and does not panic. *)
Theorem C10_no_conversion_error
    (i : IPv4CIDR) (IP : gostring) (standardize : bool) :
  regexp.Match consts.IPv4CIDRRegex IP = true ->
  (exists body o1 o2 o3 o4 v1 v2 v3 v4,
      nth_error (strings.Split IP "/") 0 = Some body /\
      strings.Split body "." = [o1; o2; o3; o4] /\
      strconv.Atoi o1 = Ok v1 /\ strconv.Atoi o2 = Ok v2 /\
      strconv.Atoi o3 = Ok v3 /\ strconv.Atoi o4 = Ok v4 /\
      0 <= v1 <= 255 /\ 0 <= v2 <= 255 /\ 0 <= v3 <= 255 /\ 0 <= v4 <= 255) /\
  (List.length (strings.Split IP "/") = 1%nat \/
   exists e m,
     List.length (strings.Split IP "/") = 2%nat /\
     nth_error (strings.Split IP "/") 1 = Some e /\
     strconv.Atoi e = Ok m /\ 0 <= m <= 32) /\
  ((exists b, parse i IP standardize = Ok b) \/
   (standardize = false /\
    parse i IP standardize = Err NonStandardizedIPError)).
Proof.
  intros HM.
  destruct (accepted_sections IP HM)
    as (o1 & o2 & o3 & o4 & rest & HS & HD & N1 & N2 & N3 & N4 & Hrest).
  pose proof (number_upto_Atoi _ _ _ N1) as (v1 & A1 & R1).
  pose proof (number_upto_Atoi _ _ _ N2) as (v2 & A2 & R2).
  pose proof (number_upto_Atoi _ _ _ N3) as (v3 & A3 & R3).
  pose proof (number_upto_Atoi _ _ _ N4) as (v4 & A4 & R4).
  split; [ | split].
  - exists (dotted o1 o2 o3 o4), o1, o2, o3, o4, v1, v2, v3, v4.
    rewrite HS. repeat split; try assumption; lia.
  - rewrite HS. destruct Hrest as [-> | (e & -> & Ne)]; [now left | right].
    apply number_upto_Atoi in Ne as (m & Ae & Rm).
    exists e, m. repeat split; try assumption; lia.
  - generalize HM. intros HM'.
    apply Match_spec, IPv4CIDRRegex_shape in HM'
      as (p1 & p2 & p3 & p4 & sfx & -> & Hp1 & Hp2 & Hp3 & Hp4 & Hsfx).
    destruct (NewIPv4CIDR_dotted p1 p2 p3 p4 sfx standardize
                Hp1 Hp2 Hp3 Hp4 Hsfx)
      as (w1 & w2 & w3 & w4 & m & _ & _ & _ & _ & _ & _ & _ & _ & _ & _ & HN).
    unfold NewIPv4CIDR in HN. rewrite HM in HN. cbn [negb] in HN.
    assert (HP : parse i (dotted p1 p2 p3 p4 ++ sfx) standardize
                 = parse (mkIPv4CIDR 0 0 0 0) (dotted p1 p2 p3 p4 ++ sfx)
                     standardize) by reflexivity.
    rewrite HP, HN. apply build_result.
Qed.

Lemma C10_no_conversion_error_witness :
  exists b, parse block_0_0_0_0_0 (str "10.10.0.0/26") false = Ok b.
Proof.
  destruct (C10_no_conversion_error block_0_0_0_0_0 (str "10.10.0.0/26") false
              ltac:(vm_compute; reflexivity)) as (_ & _ & [H | (_ & H)]).
  - exact H.
  - vm_compute in H. discriminate H.
Defined.

(** ** Leading zeros *)

Lemma in_class_digit (c : ascii) :
  in_class [("0", "9")]%char c = strconv.is_digit c.
Proof.
  unfold in_class. cbn [existsb]. rewrite orb_false_r. reflexivity.
Qed.

Lemma zero_led_octet (o : gostring) :
  zero_led o = true -> matches consts.octet o.
Proof.
  destruct o as [ | c rest]; [discriminate | ].
  unfold zero_led. rewrite !andb_true_iff.
  intros (((Hc & Hd) & Hl1) & Hl2).
  apply Ascii.eqb_eq in Hc. subst c.
  apply Nat.leb_le in Hl1, Hl2.
  right. right. exists ["0"%char], rest. split; [reflexivity | ]. split.
  { right. exists "0"%char. split; reflexivity. }
  destruct rest as [ | d1 [ | d2 [ | d3 rest]]]; simpl in Hl1, Hl2; try lia.
  - exists [d1], []. split; [reflexivity | ]. split; [ | now left].
    exists d1. split; [reflexivity | ].
    rewrite in_class_digit. unfold digit_string in Hd. simpl in Hd.
    now rewrite andb_true_r in Hd.
  - exists [d1], [d2]. split; [reflexivity | ].
    unfold digit_string in Hd. simpl in Hd. rewrite andb_true_r in Hd.
    apply andb_true_iff in Hd as (Hd1 & Hd2).
    split; [exists d1 | right; exists d2]; rewrite in_class_digit; auto.
Qed.

Lemma prefix_words_plain :
  forallb (fun e => negb (leading_zero e)) (words consts.prefix) = true.
Proof. vm_compute. reflexivity. Qed.

Lemma number_upto_prefix (e : gostring) :
  regexp.Match consts.prefix e = true <->
  number_upto 2 32 e = true /\ leading_zero e = false.
Proof.
  rewrite Match_spec. split.
  - intros H. split; [now apply prefix_number | ].
    apply words_spec in H.
    apply (proj1 (forallb_forall _ _) prefix_words_plain) in H.
    now apply negb_true_iff in H.
  - intros (Hn & Hz).
    pose proof (number_upto_length _ _ _ Hn) as Hl.
    pose proof (number_upto_digits _ _ _ Hn) as Hd.
    apply number_upto_Atoi in Hn as (m & Hm & Rm).
    destruct (Itoa_prefix m Rm) as (HM & _ & _).
    apply Match_spec in HM.
    assert (He : e = strconv.Itoa m); [ | now rewrite He].
    clear HM.
    destruct e as [ | c1 [ | c2 [ | c3 e]]]; simpl in Hl; try lia.
    + revert Hm Rm. clear. destruct c1 as [[] [] [] [] [] [] [] []];
        vm_compute; intros [= <-]; try reflexivity;
        intros (_ & H); exfalso; now apply H.
    + unfold digit_string in Hd. simpl in Hd. rewrite andb_true_r in Hd.
      apply andb_true_iff in Hd as (Hd1 & Hd2).
      simpl in Hz. revert Hm Rm Hz Hd1 Hd2. clear.
      destruct c1 as [[] [] [] [] [] [] [] []]; try discriminate;
        destruct c2 as [[] [] [] [] [] [] [] []]; try discriminate;
        vm_compute; intros [= <-]; try reflexivity;
        intros (_ & H); exfalso; now apply H.
Qed.

(** C8 as stated fails at its own example: the pattern matches the octet
    [010], and the input is read as 10.10.0.0/26. *)
Lemma C8_leading_zero_accepted :
  NewIPv4CIDR (str "010.10.0.0/26") false = Ok block_10_10_0_0_26.
Proof. vm_compute. reflexivity. Qed.

(** C8, amended: an octet of two or three digits that starts with 0
    matches the pattern; an input whose octets are such octets or any other
    octets of the pattern is not rejected as invalid, and its octets are
    read in decimal; an input is rejected as invalid when a section of its
    address part has more than three characters, and when its prefix
    length is written with a leading zero. *)
Theorem C8_leading_zero_octets :
  (forall o, zero_led o = true -> regexp.Match consts.octet o = true) /\
  (forall o1 o2 o3 o4 sfx standardize,
      zero_led o1 = true \/ matches consts.octet o1 ->
      zero_led o2 = true \/ matches consts.octet o2 ->
      zero_led o3 = true \/ matches consts.octet o3 ->
      zero_led o4 = true \/ matches consts.octet o4 ->
      sfx = [] \/ (exists e, sfx = "/"%char :: e /\ matches consts.prefix e) ->
      exists v1 v2 v3 v4 m,
        strconv.Atoi o1 = Ok v1 /\ strconv.Atoi o2 = Ok v2 /\
        strconv.Atoi o3 = Ok v3 /\ strconv.Atoi o4 = Ok v4 /\
        NewIPv4CIDR (dotted o1 o2 o3 o4 ++ sfx) standardize
        = build (pack v1 v2 v3 v4) m standardize /\
        NewIPv4CIDR (dotted o1 o2 o3 o4 ++ sfx) standardize
        <> Err InvalidIPv4CIDRError) /\
  (forall IP standardize body o,
      nth_error (strings.Split IP "/") 0 = Some body ->
      In o (strings.Split body ".") -> (3 < List.length o)%nat ->
      NewIPv4CIDR IP standardize = Err InvalidIPv4CIDRError) /\
  (forall IP standardize e,
      nth_error (strings.Split IP "/") 1 = Some e ->
      leading_zero e = true ->
      NewIPv4CIDR IP standardize = Err InvalidIPv4CIDRError).
Proof.
  split; [ | split; [ | split]].
  - intros o Ho. now apply Match_spec, zero_led_octet.
  - intros o1 o2 o3 o4 sfx standardize H1 H2 H3 H4 Hsfx.
    assert (M1 : matches consts.octet o1)
      by (destruct H1; [now apply zero_led_octet | assumption]).
    assert (M2 : matches consts.octet o2)
      by (destruct H2; [now apply zero_led_octet | assumption]).
    assert (M3 : matches consts.octet o3)
      by (destruct H3; [now apply zero_led_octet | assumption]).
    assert (M4 : matches consts.octet o4)
      by (destruct H4; [now apply zero_led_octet | assumption]).
    destruct (NewIPv4CIDR_dotted o1 o2 o3 o4 sfx standardize M1 M2 M3 M4 Hsfx)
      as (v1 & v2 & v3 & v4 & m & A1 & A2 & A3 & A4 & _ & _ & _ & _ & _ & _
          & HN).
    exists v1, v2, v3, v4, m. repeat split; try assumption.
    rewrite HN.
    destruct (build_result (pack v1 v2 v3 v4) m standardize)
      as [(b & ->) | (_ & ->)]; discriminate.
  - intros IP standardize body o Hbody Ho Hlen.
    unfold NewIPv4CIDR.
    destruct (regexp.Match consts.IPv4CIDRRegex IP) eqn:HM; [ | reflexivity].
    exfalso.
    destruct (accepted_sections IP HM)
      as (o1 & o2 & o3 & o4 & rest & HS & HD & N1 & N2 & N3 & N4 & _).
    rewrite HS in Hbody. injection Hbody as <-. rewrite HD in Ho.
    apply number_upto_length in N1, N2, N3, N4.
    destruct Ho as [<- | [<- | [<- | [<- | []]]]]; lia.
  - intros IP standardize e He Hz.
    unfold NewIPv4CIDR.
    destruct (regexp.Match consts.IPv4CIDRRegex IP) eqn:HM; [ | reflexivity].
    exfalso.
    destruct (accepted_sections IP HM)
      as (o1 & o2 & o3 & o4 & rest & HS & _ & _ & _ & _ & _ & Hrest).
    generalize HM. intros HM'.
    apply Match_spec, IPv4CIDRRegex_shape in HM'
      as (p1 & p2 & p3 & p4 & sfx & -> & Hp1 & Hp2 & Hp3 & Hp4 & Hsfx).
    apply octet_number in Hp1, Hp2, Hp3, Hp4.
    apply number_upto_digits in Hp1, Hp2, Hp3, Hp4.
    pose proof (dotted_no_slash _ _ _ _ Hp1 Hp2 Hp3 Hp4) as Hns.
    destruct Hsfx as [-> | (e' & -> & He')].
    + rewrite app_nil_r, Split_nosep in He by assumption. discriminate.
    + apply Match_spec, number_upto_prefix in He' as (Hn & Hz').
      rewrite Split_app in He by assumption.
      rewrite Split_nosep in He
        by (apply digit_string_not_in with (s := e');
            [now apply number_upto_digits in Hn | reflexivity]).
      injection He as <-. congruence.
Qed.

(** * Further properties of the package *)

(** ** Standardization *)

Lemma standard_multiple (a k : Z) :
  0 <= k <= 32 ->
  Z.land a (utils.GetNetmask k) = a -> a mod 2 ^ (32 - k) = 0.
Proof.
  intros Hk H. apply Z.bits_inj'. intros i Hi.
  rewrite Z.bits_0, Z.testbit_mod_pow2 by lia.
  destruct (Z.ltb_spec i (32 - k)) as [Hlt | Hge]; [ | reflexivity].
  simpl. destruct (Z.testbit a i) eqn:Hb; [ | reflexivity].
  rewrite land_eq_iff in H. specialize (H _ Hi Hb).
  rewrite GetNetmask_testbit in H by lia.
  apply andb_true_iff in H as (H1 & _). apply Z.leb_le in H1. lia.
Qed.

Lemma Standardize_value (a k : Z) :
  0 <= a < 2 ^ 32 -> 0 <= k <= 32 ->
  utils.Standardize a (utils.GetNetmask k) = a - a mod 2 ^ (32 - k).
Proof.
  intros Ha Hk. unfold utils.Standardize.
  assert (Hp : 0 < 2 ^ (32 - k)) by (apply Z.pow_pos_nonneg; lia).
  replace (a - a mod 2 ^ (32 - k))
    with (Z.shiftl (Z.shiftr a (32 - k)) (32 - k)).
  - apply Z.bits_inj'. intros i Hi.
    rewrite Z.land_spec, GetNetmask_testbit by lia.
    destruct (Z.leb_spec (32 - k) i) as [Hle | Hlt].
    + rewrite Z.shiftl_spec, Z.shiftr_spec by lia.
      replace (i - (32 - k) + (32 - k)) with i by lia.
      destruct (Z.ltb_spec i 32) as [H32 | H32];
        [now rewrite andb_true_r | ].
      rewrite andb_false_r.
      rewrite <- (Z.mod_small a (2 ^ 32)), Z.testbit_mod_pow2 by lia.
      destruct (Z.ltb_spec i 32); [lia | reflexivity].
    + rewrite Z.shiftl_spec_low by lia. now rewrite andb_false_r.
  - rewrite Z.shiftl_mul_pow2, Z.shiftr_div_pow2 by lia.
    pose proof (Z.div_mod a (2 ^ (32 - k)) ltac:(lia)). lia.
Qed.

(** X1: [Standardize] with the netmask of a prefix length k rounds a uint32
    address down to a multiple of the range length [2^(32-k)]: the result
    is the first address of the range that holds the address. *)
Theorem Standardize_first_of_range (a k : Z) :
  0 <= a < 2 ^ 32 -> 0 <= k <= 32 ->
  let first := utils.Standardize a (utils.GetNetmask k) in
  first = a - a mod 2 ^ (32 - k) /\
  first mod 2 ^ (32 - k) = 0 /\
  first <= a < first + 2 ^ (32 - k).
Proof.
  intros Ha Hk first. subst first. rewrite Standardize_value by assumption.
  assert (Hp : 0 < 2 ^ (32 - k)) by (apply Z.pow_pos_nonneg; lia).
  pose proof (Z.mod_pos_bound a (2 ^ (32 - k)) Hp) as Hm.
  split; [reflexivity | ]. split; [ | lia].
  rewrite Zminus_mod_idemp_r, Z.sub_diag. apply Z.mod_0_l. lia.
Qed.

Lemma Standardize_first_of_range_witness :
  utils.Standardize 168427620 (utils.GetNetmask 20)
  = 168427620 - 168427620 mod 2 ^ (32 - 20).
Proof.
  refine (proj1 (Standardize_first_of_range 168427620 20 _ _)).
  - vm_compute. split; [discriminate | reflexivity].
  - vm_compute. split; discriminate.
Defined.

(** X2: [Standardize] is idempotent, and [CheckStandardized] accepts
    exactly the addresses that [Standardize] leaves as they are, so it
    accepts everything [Standardize] returns. *)
Theorem CheckStandardized_Standardize (a netmask : Z) :
  utils.Standardize (utils.Standardize a netmask) netmask
  = utils.Standardize a netmask /\
  utils.CheckStandardized (utils.Standardize a netmask) netmask = None /\
  (utils.CheckStandardized a netmask = None
   <-> utils.Standardize a netmask = a) /\
  (utils.CheckStandardized a netmask = Some NonStandardizedIPError
   <-> utils.Standardize a netmask <> a).
Proof.
  assert (Hi : utils.Standardize (utils.Standardize a netmask) netmask
               = utils.Standardize a netmask).
  { unfold utils.Standardize. now rewrite <- Z.land_assoc, Z.land_diag. }
  split; [exact Hi | ]. unfold utils.CheckStandardized.
  rewrite Hi, Z.eqb_refl. split; [reflexivity | ].
  destruct (Z.eqb_spec a (utils.Standardize a netmask)) as [He | Hne].
  - split; split; congruence.
  - split; split; try congruence; discriminate.
Qed.

(** X3: the netmask of a prefix length k (0 to 32) has exactly its k
    leading bits set: bit i is set when [32 - k <= i < 32]. *)
Theorem GetNetmask_leading_ones (k i : Z) :
  0 <= k <= 32 -> 0 <= i ->
  Z.testbit (utils.GetNetmask k) i = (32 - k <=? i) && (i <? 32).
Proof. exact (GetNetmask_testbit k i). Qed.

Lemma GetNetmask_leading_ones_witness :
  Z.testbit (utils.GetNetmask 26) 6 = (32 - 26 <=? 6) && (6 <? 32).
Proof.
  apply GetNetmask_leading_ones.
  - vm_compute. split; discriminate.
  - vm_compute. discriminate.
Defined.

(** ** The constructor *)

Lemma pack_range (v1 v2 v3 v4 : Z) :
  0 <= v1 <= 255 -> 0 <= v2 <= 255 -> 0 <= v3 <= 255 -> 0 <= v4 <= 255 ->
  0 <= pack v1 v2 v3 v4 < 2 ^ 32.
Proof.
  intros H1 H2 H3 H4. rewrite pack_value by assumption.
  change (2 ^ 32) with 4294967296. lia.
Qed.

(** One reading of the input serves both values of the flag; [bare] tells
    an input without a slash. *)
Lemma NewIPv4CIDR_reads (IP : gostring) :
  regexp.Match consts.IPv4CIDRRegex IP = true ->
  exists a m,
    0 <= a < 2 ^ 32 /\ 0 <= m <= 32 /\
    (~ In "/"%char IP -> m = 32) /\
    forall standardize, NewIPv4CIDR IP standardize = build a m standardize.
Proof.
  intros HM. generalize HM. intros HM'.
  apply Match_spec, IPv4CIDRRegex_shape in HM'
    as (o1 & o2 & o3 & o4 & sfx & -> & Ho1 & Ho2 & Ho3 & Ho4 & Hsfx).
  destruct (NewIPv4CIDR_dotted o1 o2 o3 o4 sfx true Ho1 Ho2 Ho3 Ho4 Hsfx)
    as (v1 & v2 & v3 & v4 & m & A1 & A2 & A3 & A4 & R1 & R2 & R3 & R4 & Rm
        & Hm & HT).
  exists (pack v1 v2 v3 v4), m.
  split; [now apply pack_range | ]. split; [assumption | ]. split.
  - intros Hns. destruct sfx as [ | c e]; [assumption | ].
    exfalso. apply Hns. apply in_or_app. right.
    destruct Hsfx as [H | (e' & [= -> ->] & _)]; [discriminate | now left].
  - intros standardize.
    destruct (NewIPv4CIDR_dotted o1 o2 o3 o4 sfx standardize
                Ho1 Ho2 Ho3 Ho4 Hsfx)
      as (w1 & w2 & w3 & w4 & m' & B1 & B2 & B3 & B4 & _ & _ & _ & _ & _
          & Hm' & ->).
    rewrite A1 in B1. rewrite A2 in B2. rewrite A3 in B3. rewrite A4 in B4.
    injection B1 as <-. injection B2 as <-. injection B3 as <-.
    injection B4 as <-.
    destruct sfx as [ | c e]; [now subst | ].
    rewrite Hm in Hm'. now injection Hm' as <-.
Qed.

(** X4: [NewIPv4CIDR] returns a block, the invalid-format error or the
    non-standardized error, and nothing else: no conversion error of
    [Atoi] gets out and no index panics, whatever the input.  The
    invalid-format error is returned exactly when the pattern does not
    match, and the non-standardized error only when standardize is
    false. *)
Theorem NewIPv4CIDR_outcomes (IP : gostring) (standardize : bool) :
  (NewIPv4CIDR IP standardize = Err InvalidIPv4CIDRError
   <-> regexp.Match consts.IPv4CIDRRegex IP = false) /\
  ((exists b, NewIPv4CIDR IP standardize = Ok b) \/
   NewIPv4CIDR IP standardize = Err InvalidIPv4CIDRError \/
   (standardize = false /\
    NewIPv4CIDR IP standardize = Err NonStandardizedIPError)).
Proof.
  destruct (regexp.Match consts.IPv4CIDRRegex IP) eqn:HM.
  - destruct (NewIPv4CIDR_reads IP HM) as (a & m & _ & _ & _ & HN).
    rewrite HN.
    destruct (build_result a m standardize) as [(b & Hb) | (Hs & Hb)];
      rewrite Hb.
    + split; [split; discriminate | left; eauto].
    + split; [split; discriminate | right; right; auto].
  - unfold NewIPv4CIDR. rewrite HM. cbn [negb].
    split; [split; reflexivity | right; left; reflexivity].
Qed.

(** X5: the two values of the flag agree wherever both succeed: a block
    returned with standardize = false is also the block returned with
    standardize = true, and an input accepted with standardize = true is,
    with standardize = false, either the same block or the
    non-standardized error. *)
Theorem NewIPv4CIDR_flags_agree (IP : gostring) :
  (forall b, NewIPv4CIDR IP false = Ok b -> NewIPv4CIDR IP true = Ok b) /\
  (forall b, NewIPv4CIDR IP true = Ok b ->
             NewIPv4CIDR IP false = Ok b \/
             NewIPv4CIDR IP false = Err NonStandardizedIPError).
Proof.
  split; intros b H; pose proof (NewIPv4CIDR_Ok_Match _ _ _ H) as HM;
    destruct (NewIPv4CIDR_reads IP HM) as (a & m & _ & _ & _ & HN);
    rewrite HN in *; rewrite build_check, build_standardize in *.
  - destruct (Z.eqb_spec a (Z.land a (utils.GetNetmask m))) as [He | Hne];
      [ | discriminate].
    injection H as <-. now rewrite <- He.
  - destruct (Z.eqb_spec a (Z.land a (utils.GetNetmask m))) as [He | Hne];
      [left | now right].
    injection H as <-. now rewrite <- He.
Qed.

(** X6: an accepted input without a slash is a single address: under
    either flag [NewIPv4CIDR] returns a block with mask 32, an all-ones
    netmask and range length 1, and never the non-standardized error. *)
Theorem NewIPv4CIDR_bare_address (IP : gostring) (standardize : bool) :
  regexp.Match consts.IPv4CIDRRegex IP = true -> ~ In "/"%char IP ->
  exists b,
    NewIPv4CIDR IP standardize = Ok b /\
    mask b = 32 /\ netmask b = consts.MaxUInt32 /\ rangeLength b = 1.
Proof.
  intros HM Hns.
  destruct (NewIPv4CIDR_reads IP HM) as (a & m & Ha & _ & Hm & HN).
  rewrite HN, (Hm Hns).
  assert (Hstd : Z.land a (utils.GetNetmask 32) = a).
  { change (utils.GetNetmask 32) with (Z.ones 32).
    rewrite Z.land_ones by lia. now apply Z.mod_small. }
  destruct standardize.
  - rewrite build_standardize. eexists. split; [reflexivity | ].
    cbn [mask netmask rangeLength]. repeat split; reflexivity.
  - rewrite build_check, Hstd, Z.eqb_refl. eexists. split; [reflexivity | ].
    cbn [mask netmask rangeLength]. repeat split; reflexivity.
Qed.

Lemma NewIPv4CIDR_bare_address_witness :
  exists b,
    NewIPv4CIDR (str "10.2.3.4") false = Ok b /\
    mask b = 32 /\ netmask b = consts.MaxUInt32 /\ rangeLength b = 1.
Proof.
  apply NewIPv4CIDR_bare_address.
  - vm_compute. reflexivity.
  - vm_compute. intros H. repeat (destruct H as [H | H]; [discriminate H | ]).
    exact H.
Defined.

(** X7: what [ConvertIPToString] writes for a uint32 address is accepted
    by [NewIPv4CIDR] under either flag and reads back as the /32 block of
    that very address; so different addresses are written differently. *)
Theorem ConvertIPToString_read_back (a : Z) (standardize : bool) :
  0 <= a < 2 ^ 32 ->
  NewIPv4CIDR (utils.ConvertIPToString a) standardize
  = Ok {| ip := a; mask := 32; netmask := consts.MaxUInt32;
          rangeLength := 1 |} /\
  (forall a', 0 <= a' < 2 ^ 32 ->
              utils.ConvertIPToString a' = utils.ConvertIPToString a ->
              a' = a).
Proof.
  intros Ha.
  assert (Hread : forall x std, 0 <= x < 2 ^ 32 ->
            NewIPv4CIDR (utils.ConvertIPToString x) std
            = Ok {| ip := x; mask := 32; netmask := consts.MaxUInt32;
                    rangeLength := 1 |}).
  { intros x std Hx.
    rewrite (proj1 (NewIPv4CIDR_written x 32 std Hx ltac:(lia))).
    assert (Hstd : Z.land x (utils.GetNetmask 32) = x).
    { change (utils.GetNetmask 32) with (Z.ones 32).
      rewrite Z.land_ones by lia. now apply Z.mod_small. }
    destruct std.
    - rewrite build_standardize, Hstd. reflexivity.
    - rewrite build_check, Hstd, Z.eqb_refl. reflexivity. }
  split; [now apply Hread | ].
  intros a' Ha' He.
  pose proof (Hread a true Ha) as H1. pose proof (Hread a' true Ha') as H2.
  rewrite He, H1 in H2. now injection H2.
Qed.

Lemma ConvertIPToString_read_back_witness :
  NewIPv4CIDR (utils.ConvertIPToString 167904004) false
  = Ok block_10_2_3_4_32.
Proof.
  refine (proj1 (ConvertIPToString_read_back 167904004 false _)).
  vm_compute. split; [discriminate | reflexivity].
Defined.

(** ** Blocks with a range length that did not wrap *)

(** A reachable block whose range length is not the wrapped 0 has the
    netmask and the range length of its own mask. *)
Lemma inv_sized (b : IPv4CIDR) :
  block_inv b -> rangeLength b <> 0 ->
  1 <= mask b <= 32 /\
  netmask b = utils.GetNetmask (mask b) /\
  rangeLength b = 2 ^ (32 - mask b) /\
  rangeLength b = utils.GetCIDRRangeLength (mask b) /\
  0 <= ip b < 2 ^ 32 /\
  Z.land (ip b) (utils.GetNetmask (mask b)) = ip b /\
  ip b + rangeLength b <= 2 ^ 32.
Proof.
  intros (k & Hk & Hnm & Hip & Hstd & Hrl) Hne.
  destruct Hrl as [H0 | (Hk1 & Hmk & Hr)]; [contradiction | ].
  subst k. rewrite Hnm in Hstd.
  repeat split; try assumption; try lia.
  - rewrite GetCIDRRangeLength_pos by lia. assumption.
  - rewrite Hr. now apply standard_upper_bound.
Qed.

Lemma GetIPInRange_value (b : IPv4CIDR) (n : Z) :
  block_inv b -> 1 <= n <= rangeLength b ->
  GetIPInRange b n false = Ok (utils.ConvertIPToString (ip b + n - 1)) /\
  GetIPInRange b n true
  = Ok (utils.ConvertIPToString (ip b + n - 1)
        ++ str "/" ++ strconv.Itoa (mask b)).
Proof.
  intros Hb Hn.
  destruct (inv_sized b Hb ltac:(lia)) as (_ & _ & _ & _ & Hip & _ & Hub).
  unfold GetIPInRange.
  destruct (Z.ltb_spec (rangeLength b) n) as [Hlt | _]; [lia | ].
  assert (Hv : uint32 (uint32 (ip b + n) - 1) = ip b + n - 1).
  { unfold uint32. rewrite Zminus_mod_idemp_l. apply Z.mod_small. lia. }
  rewrite Hv. split; reflexivity.
Qed.

Lemma Split_sized (i lo hi : IPv4CIDR) :
  block_inv i -> rangeLength i <> 0 -> Split i = Ok (lo, hi) ->
  mask i <= 31 /\
  rangeLength lo = 2 ^ (31 - mask i) /\ rangeLength hi = 2 ^ (31 - mask i) /\
  rangeLength i = 2 * 2 ^ (31 - mask i) /\
  mask lo = mask i + 1 /\ mask hi = mask i + 1 /\
  ip lo = ip i /\ ip hi = ip i + 2 ^ (31 - mask i).
Proof.
  intros Hi Hne HS.
  destruct (inv_sized i Hi Hne) as (Hm & Hnm & Hr & _ & Hip & Hstd & _).
  apply Split_Ok in HS as (Hn1 & -> & ->).
  cbn [ip mask netmask rangeLength].
  assert (Hm31 : mask i <= 31).
  { destruct (Z.eq_dec (mask i) 32) as [H32 | H32]; [ | lia].
    rewrite H32 in Hr. now rewrite Hr in Hn1. }
  assert (Hpow : 2 ^ (32 - mask i) = 2 * 2 ^ (31 - mask i)).
  { replace (32 - mask i) with (Z.succ (31 - mask i)) by lia.
    apply Z.pow_succ_r. lia. }
  rewrite Hnm, Split_netmask by lia.
  rewrite Split_upper_ip by (assumption || lia).
  destruct (Z.eqb_spec (mask i) 32); [lia | ].
  rewrite Hr, Hpow. unfold uint8. rewrite Z.mod_small by lia.
  rewrite Z.mul_comm, Z.div_mul by lia.
  repeat split; lia.
Qed.

(** X8: for a block built by [NewIPv4CIDR] or split off such a block,
    whose range length is not the wrapped 0 (so every block that does not
    come from the /0 block), a successful [Split] is a partition: the two
    range lengths are equal, not 0, and add up to the parent's; the lower
    half starts where the parent starts, the upper half starts right after
    the lower one and ends where the parent ends, and both have the
    parent's mask plus one. *)
Theorem Split_partition (i lo hi : IPv4CIDR) :
  Reachable i -> rangeLength i <> 0 -> Split i = Ok (lo, hi) ->
  rangeLength lo + rangeLength hi = rangeLength i /\
  rangeLength lo = rangeLength hi /\ 0 < rangeLength lo /\
  ip lo = ip i /\ ip lo < ip hi /\
  ip hi = ip lo + rangeLength lo /\
  ip hi + rangeLength hi = ip i + rangeLength i /\
  mask lo = mask i + 1 /\ mask hi = mask i + 1.
Proof.
  intros Hi Hne HS. apply Reachable_inv in Hi.
  destruct (Split_sized i lo hi Hi Hne HS)
    as (Hm & Hl & Hh & Hr & Hml & Hmh & Hil & Hih).
  destruct (inv_sized i Hi Hne) as (Hm1 & _).
  assert (0 < 2 ^ (31 - mask i)) by (apply Z.pow_pos_nonneg; lia).
  repeat split; lia.
Qed.

Lemma Split_partition_witness :
  rangeLength block_10_10_0_0_27 + rangeLength block_10_10_0_32_27
  = rangeLength block_10_10_0_0_26 /\
  rangeLength block_10_10_0_0_27 = rangeLength block_10_10_0_32_27 /\
  0 < rangeLength block_10_10_0_0_27 /\
  ip block_10_10_0_0_27 = ip block_10_10_0_0_26 /\
  ip block_10_10_0_0_27 < ip block_10_10_0_32_27 /\
  ip block_10_10_0_32_27
  = ip block_10_10_0_0_27 + rangeLength block_10_10_0_0_27 /\
  ip block_10_10_0_32_27 + rangeLength block_10_10_0_32_27
  = ip block_10_10_0_0_26 + rangeLength block_10_10_0_0_26 /\
  mask block_10_10_0_0_27 = mask block_10_10_0_0_26 + 1 /\
  mask block_10_10_0_32_27 = mask block_10_10_0_0_26 + 1.
Proof.
  apply (Split_partition block_10_10_0_0_26).
  - exact (reach_new _ _ _ block_10_10_0_0_26_new).
  - vm_compute. discriminate.
  - vm_compute. reflexivity.
Defined.

(** X9: on such a block the first address is the block's own address:
    [GetIPInRange 1 false] succeeds and returns what [GetIP] returns. *)
Theorem GetIPInRange_first (b : IPv4CIDR) :
  Reachable b -> rangeLength b <> 0 ->
  GetIPInRange b 1 false = Ok (GetIP b).
Proof.
  intros Hb Hne. apply Reachable_inv in Hb.
  destruct (inv_sized b Hb Hne) as (Hm & _ & Hr & _).
  assert (0 < 2 ^ (32 - mask b)) by (apply Z.pow_pos_nonneg; lia).
  rewrite (proj1 (GetIPInRange_value b 1 Hb ltac:(lia))).
  unfold GetIP. do 2 f_equal. lia.
Qed.

Lemma GetIPInRange_first_witness :
  GetIPInRange block_10_10_0_0_26 1 false = Ok (GetIP block_10_10_0_0_26).
Proof.
  apply GetIPInRange_first.
  - exact (reach_new _ _ _ block_10_10_0_0_26_new).
  - vm_compute. discriminate.
Defined.

(** X10: the halves of such a block are blocks that [NewIPv4CIDR] builds:
    reading the [ToString] of each half with standardize = false returns
    that half. *)
Theorem Split_halves_read_back (i lo hi : IPv4CIDR) :
  Reachable i -> rangeLength i <> 0 -> Split i = Ok (lo, hi) ->
  NewIPv4CIDR (ToString lo) false = Ok lo /\
  NewIPv4CIDR (ToString hi) false = Ok hi.
Proof.
  intros Hi Hne HS. apply Reachable_inv in Hi.
  destruct (Split_sized i lo hi Hi Hne HS) as (Hm & Hl & Hh & _).
  destruct (Split_inv i lo hi Hi HS) as (Hlo & Hhi).
  assert (Hp : 0 < 2 ^ (31 - mask i)).
  { destruct (inv_sized i Hi Hne) as (Hm1 & _).
    apply Z.pow_pos_nonneg; lia. }
  destruct (inv_sized lo Hlo ltac:(lia)) as (M1 & N1 & _ & R1 & I1 & S1 & _).
  destruct (inv_sized hi Hhi ltac:(lia)) as (M2 & N2 & _ & R2 & I2 & S2 & _).
  split; apply ToString_reparse; try assumption; try lia.
  - now rewrite N1.
  - now rewrite N2.
Qed.

Lemma Split_halves_read_back_witness :
  NewIPv4CIDR (ToString block_10_10_0_0_27) false = Ok block_10_10_0_0_27 /\
  NewIPv4CIDR (ToString block_10_10_0_32_27) false = Ok block_10_10_0_32_27.
Proof.
  apply (Split_halves_read_back block_10_10_0_0_26).
  - exact (reach_new _ _ _ block_10_10_0_0_26_new).
  - vm_compute. discriminate.
  - vm_compute. reflexivity.
Defined.

(** X11: the addresses of the halves are the addresses of the parent, in
    order: the nth address of the parent is the nth address of the lower
    half while n is within the lower half, and after that the address of
    the upper half at n minus the lower half's range length. *)
Theorem Split_addresses (i lo hi : IPv4CIDR) (n : Z) :
  Reachable i -> Split i = Ok (lo, hi) -> 1 <= n <= rangeLength i ->
  GetIPInRange i n false
  = if n <=? rangeLength lo then GetIPInRange lo n false
    else GetIPInRange hi (n - rangeLength lo) false.
Proof.
  intros Hi HS Hn. apply Reachable_inv in Hi.
  assert (Hne : rangeLength i <> 0) by lia.
  destruct (Split_sized i lo hi Hi Hne HS)
    as (Hm & Hl & Hh & Hr & _ & _ & Hil & Hih).
  destruct (Split_inv i lo hi Hi HS) as (Hlo & Hhi).
  rewrite (proj1 (GetIPInRange_value i n Hi Hn)).
  destruct (Z.leb_spec n (rangeLength lo)) as [Hle | Hgt].
  - rewrite (proj1 (GetIPInRange_value lo n Hlo ltac:(lia))).
    now rewrite Hil.
  - rewrite (proj1 (GetIPInRange_value hi (n - rangeLength lo) Hhi
                      ltac:(lia))).
    do 2 f_equal. lia.
Qed.

Lemma Split_addresses_witness :
  GetIPInRange block_10_10_0_0_26 40 false
  = if 40 <=? rangeLength block_10_10_0_0_27
    then GetIPInRange block_10_10_0_0_27 40 false
    else GetIPInRange block_10_10_0_32_27
           (40 - rangeLength block_10_10_0_0_27) false.
Proof.
  apply Split_addresses.
  - exact (reach_new _ _ _ block_10_10_0_0_26_new).
  - vm_compute. reflexivity.
  - vm_compute. split; discriminate.
Defined.

(** X12: every address of such a block leads back to the block: what
    [GetIPInRange n true] returns for n within the range is accepted by
    [NewIPv4CIDR] with standardize = true, which returns the block
    itself. *)
Theorem GetIPInRange_standardizes_back (b : IPv4CIDR) (n : Z) (s : gostring) :
  Reachable b -> 1 <= n <= rangeLength b ->
  GetIPInRange b n true = Ok s ->
  NewIPv4CIDR s true = Ok b.
Proof.
  intros Hb Hn Hs. apply Reachable_inv in Hb.
  rewrite (proj2 (GetIPInRange_value b n Hb Hn)) in Hs.
  apply (f_equal (fun r => match r with Ok x => x | _ => s end)) in Hs.
  cbv beta iota in Hs. subst s.
  destruct (inv_sized b Hb ltac:(lia))
    as (Hm & Hnm & Hr & Hrl & Hip & Hstd & Hub).
  rewrite (proj2 (NewIPv4CIDR_written (ip b + n - 1) (mask b) true
                    ltac:(lia) ltac:(lia))).
  rewrite build_standardize.
  assert (Hfirst : Z.land (ip b + n - 1) (utils.GetNetmask (mask b)) = ip b).
  { fold (utils.Standardize (ip b + n - 1) (utils.GetNetmask (mask b))).
    rewrite Standardize_value by lia.
    pose proof (standard_multiple (ip b) (mask b) ltac:(lia) Hstd) as Hmul.
    assert (Hp : 0 < 2 ^ (32 - mask b)) by (apply Z.pow_pos_nonneg; lia).
    replace (ip b + n - 1) with (n - 1 + ip b) at 2 by lia.
    rewrite <- Zplus_mod_idemp_r, Hmul, Z.add_0_r, Z.mod_small by lia.
    lia. }
  rewrite Hfirst, <- Hnm, <- Hrl.
  destruct b as [a m nm rl]. reflexivity.
Qed.

Lemma GetIPInRange_standardizes_back_witness :
  NewIPv4CIDR (str "10.10.0.9/26") true = Ok block_10_10_0_0_26.
Proof.
  apply (GetIPInRange_standardizes_back block_10_10_0_0_26 10).
  - exact (reach_new _ _ _ block_10_10_0_0_26_new).
  - vm_compute. split; discriminate.
  - vm_compute. reflexivity.
Defined.

(** ** The validation pattern, in full *)

Lemma is_digit_In (c : ascii) :
  strconv.is_digit c = true -> In c digit_chars.
Proof.
  intros H.
  assert (He : existsb (Ascii.eqb c) digit_chars = true).
  { revert H. destruct c as [[] [] [] [] [] [] [] []];
      vm_compute; intros H; (exact H || reflexivity). }
  apply existsb_exists in He as (x & Hx & He).
  apply Ascii.eqb_eq in He. now subst.
Qed.

Lemma digit_string_In (o : gostring) :
  digit_string o = true -> (1 <= List.length o <= 3)%nat ->
  In o digit_strings.
Proof.
  intros Hd Hl. unfold digit_string in Hd.
  destruct o as [ | c1 [ | c2 [ | c3 [ | c4 o]]]]; simpl in Hl; try lia;
    cbn [forallb] in Hd; rewrite ?andb_true_iff in Hd.
  - destruct Hd as (H1 & _). apply is_digit_In in H1.
    unfold digit_strings. apply in_or_app. left.
    exact (in_map (fun c => [c]) _ _ H1).
  - destruct Hd as (H1 & H2 & _). apply is_digit_In in H1, H2.
    unfold digit_strings. apply in_or_app. right. apply in_or_app. left.
    apply in_flat_map. exists c1. split; [assumption | ].
    apply (in_map (cons c1)). exact (in_map (fun c => [c]) _ _ H2).
  - destruct Hd as (H1 & H2 & H3 & _). apply is_digit_In in H1, H2, H3.
    unfold digit_strings. apply in_or_app. right. apply in_or_app. right.
    apply in_flat_map. exists c1. split; [assumption | ].
    apply (in_map (cons c1)). apply in_flat_map. exists c2.
    split; [assumption | ].
    apply (in_map (cons c2)). exact (in_map (fun c => [c]) _ _ H3).
Qed.

Lemma octet_digit_strings :
  forallb (fun o => implb (number_upto 3 255 o) (regexp.Match consts.octet o))
    digit_strings = true.
Proof. vm_compute. reflexivity. Qed.

Lemma Match_octet (o : gostring) :
  regexp.Match consts.octet o = number_upto 3 255 o.
Proof.
  destruct (number_upto 3 255 o) eqn:Hn.
  - pose proof (number_upto_digits _ _ _ Hn) as Hd.
    pose proof (number_upto_length _ _ _ Hn) as Hl.
    pose proof (proj1 (forallb_forall _ _) octet_digit_strings o
                  (digit_string_In o Hd Hl)) as H.
    cbv beta in H. now rewrite Hn in H.
  - destruct (regexp.Match consts.octet o) eqn:HM; [ | reflexivity].
    apply Match_spec, octet_number in HM. congruence.
Qed.

(** The sections of an accepted input, as numbers. *)
Lemma accepted_numbers (s : gostring) :
  regexp.Match consts.IPv4CIDRRegex s = true ->
  exists o1 o2 o3 o4 sfx,
    s = dotted o1 o2 o3 o4 ++ sfx /\
    number_upto 3 255 o1 = true /\ number_upto 3 255 o2 = true /\
    number_upto 3 255 o3 = true /\ number_upto 3 255 o4 = true /\
    (sfx = [] \/
     exists e, sfx = "/"%char :: e /\
               number_upto 2 32 e = true /\ leading_zero e = false).
Proof.
  rewrite Match_spec, IPv4CIDRRegex_shape.
  intros (o1 & o2 & o3 & o4 & sfx & Hs & H1 & H2 & H3 & H4 & Hsfx).
  exists o1, o2, o3, o4, sfx.
  apply octet_number in H1, H2, H3, H4.
  repeat split; try assumption.
  destruct Hsfx as [-> | (e & -> & He)]; [now left | right].
  exists e. split; [reflexivity | ].
  now apply number_upto_prefix, Match_spec.
Qed.

(** X13: the validation pattern accepts exactly the strings made of four
    sections joined by dots, each of one to three decimal digits and of a
    value of at most 255 (leading zeros allowed), followed by nothing or
    by a slash and a number of at most two digits, at most 32 and without
    a leading zero. *)
Theorem IPv4CIDRRegex_accepts_exactly (s : gostring) :
  regexp.Match consts.IPv4CIDRRegex s = true <->
  exists o1 o2 o3 o4 sfx,
    s = dotted o1 o2 o3 o4 ++ sfx /\
    number_upto 3 255 o1 = true /\ number_upto 3 255 o2 = true /\
    number_upto 3 255 o3 = true /\ number_upto 3 255 o4 = true /\
    (sfx = [] \/
     exists e, sfx = "/"%char :: e /\
               number_upto 2 32 e = true /\ leading_zero e = false).
Proof.
  split; [apply accepted_numbers | ].
  rewrite Match_spec, IPv4CIDRRegex_shape.
  intros (o1 & o2 & o3 & o4 & sfx & Hs & H1 & H2 & H3 & H4 & Hsfx).
  exists o1, o2, o3, o4, sfx.
  rewrite <- Match_octet in H1, H2, H3, H4.
  apply Match_spec in H1, H2, H3, H4.
  repeat split; try assumption.
  destruct Hsfx as [-> | (e & -> & He)]; [now left | right].
  exists e. split; [reflexivity | ].
  now apply Match_spec, number_upto_prefix.
Qed.

(** X14: whatever [NewIPv4CIDR] accepts has between 7 and 18 bytes, each a
    digit, a dot or a slash; so the empty string and any input with a
    blank, a sign or a letter is refused with the invalid-format error. *)
Theorem NewIPv4CIDR_alphabet (IP : gostring) (standardize : bool) :
  NewIPv4CIDR IP standardize <> Err InvalidIPv4CIDRError ->
  (7 <= List.length IP <= 18)%nat /\
  forall c, In c IP ->
    strconv.is_digit c = true \/ c = "."%char \/ c = "/"%char.
Proof.
  intros H.
  assert (HM : regexp.Match consts.IPv4CIDRRegex IP = true).
  { unfold NewIPv4CIDR in H.
    destruct (regexp.Match consts.IPv4CIDRRegex IP); [reflexivity | ].
    now contradiction H. }
  apply accepted_numbers in HM
    as (o1 & o2 & o3 & o4 & sfx & -> & N1 & N2 & N3 & N4 & Hsfx).
  pose proof (number_upto_length _ _ _ N1) as L1.
  pose proof (number_upto_length _ _ _ N2) as L2.
  pose proof (number_upto_length _ _ _ N3) as L3.
  pose proof (number_upto_length _ _ _ N4) as L4.
  apply number_upto_digits in N1, N2, N3, N4.
  unfold digit_string in N1, N2, N3, N4.
  rewrite forallb_forall in N1, N2, N3, N4.
  assert (Hs : (List.length sfx <= 3)%nat /\
               forall c, In c sfx ->
                 strconv.is_digit c = true \/ c = "."%char \/ c = "/"%char).
  { destruct Hsfx as [-> | (e & -> & Ne & _)].
    - split; [simpl; lia | intros c []].
    - pose proof (number_upto_length _ _ _ Ne) as Le.
      apply number_upto_digits in Ne. unfold digit_string in Ne.
      rewrite forallb_forall in Ne.
      split; [simpl; lia | ].
      intros c [<- | Hc]; [now right; right | left; auto]. }
  destruct Hs as (Ls & Hs). unfold dotted. split.
  - repeat (rewrite ?length_app; cbn [List.length]). lia.
  - intros c Hc.
    repeat (rewrite in_app_iff in Hc; simpl in Hc).
    intuition (subst; auto).
Qed.

Lemma NewIPv4CIDR_alphabet_witness :
  (7 <= List.length (str "10.10.0.0/26") <= 18)%nat.
Proof.
  refine (proj1 (NewIPv4CIDR_alphabet (str "10.10.0.0/26") false _)).
  vm_compute. discriminate.
Defined.

(** X15: what the constructor makes of an address a and a prefix length m
    written in the usual way: with standardize = true, the block of the
    address rounded down to a multiple of the range length; with
    standardize = false, the non-standardized error exactly when the
    address is not such a multiple, and the same block when it is. *)
Theorem NewIPv4CIDR_of_written (a m : Z) :
  0 <= a < 2 ^ 32 -> 0 <= m <= 32 ->
  let IP := utils.ConvertIPToString a ++ str "/" ++ strconv.Itoa m in
  let b := {| ip := a - a mod 2 ^ (32 - m); mask := m;
              netmask := 2 ^ 32 - 2 ^ (32 - m);
              rangeLength := 2 ^ (32 - m) mod 2 ^ 32 |} in
  NewIPv4CIDR IP true = Ok b /\
  (a mod 2 ^ (32 - m) = 0 -> NewIPv4CIDR IP false = Ok b) /\
  (a mod 2 ^ (32 - m) <> 0 ->
   NewIPv4CIDR IP false = Err NonStandardizedIPError).
Proof.
  intros Ha Hm IP b. subst IP b.
  rewrite !(proj2 (NewIPv4CIDR_written a m _ Ha Hm)).
  rewrite build_standardize, build_check.
  fold (utils.Standardize a (utils.GetNetmask m)).
  rewrite Standardize_value, GetNetmask_closed, GetCIDRRangeLength_closed
    by assumption.
  split; [reflexivity | ]. split.
  - intros H0. rewrite H0, Z.sub_0_r, Z.eqb_refl. reflexivity.
  - intros Hn0.
    destruct (Z.eqb_spec a (a - a mod 2 ^ (32 - m))); [lia | reflexivity].
Qed.

Lemma NewIPv4CIDR_of_written_witness :
  NewIPv4CIDR (utils.ConvertIPToString 168427521 ++ str "/" ++ strconv.Itoa 26)
    true
  = Ok {| ip := 168427521 - 168427521 mod 2 ^ (32 - 26); mask := 26;
          netmask := 2 ^ 32 - 2 ^ (32 - 26);
          rangeLength := 2 ^ (32 - 26) mod 2 ^ 32 |}.
Proof.
  refine (proj1 (NewIPv4CIDR_of_written 168427521 26 _ _)).
  - vm_compute. split; [discriminate | reflexivity].
  - vm_compute. split; discriminate.
Defined.

(** X16: [ToString] tells the blocks of the constructor apart: two blocks
    returned by [NewIPv4CIDR] with the same [ToString] are the same
    block. *)
Theorem ToString_injective
    (IP1 IP2 : gostring) (s1 s2 : bool) (b1 b2 : IPv4CIDR) :
  NewIPv4CIDR IP1 s1 = Ok b1 -> NewIPv4CIDR IP2 s2 = Ok b2 ->
  ToString b1 = ToString b2 -> b1 = b2.
Proof.
  intros H1 H2 He.
  apply NewIPv4CIDR_Ok in H1 as (M1 & N1 & R1 & I1 & S1).
  apply NewIPv4CIDR_Ok in H2 as (M2 & N2 & R2 & I2 & S2).
  pose proof (ToString_reparse b1 M1 N1 R1 I1 S1) as P1.
  pose proof (ToString_reparse b2 M2 N2 R2 I2 S2) as P2.
  rewrite He, P2 in P1. now injection P1.
Qed.

Lemma ToString_injective_witness :
  block_10_10_0_0_26 = block_10_10_0_0_26.
Proof.
  apply (ToString_injective (str "10.10.0.0/26") (str "10.10.0.63/26")
           false true).
  - vm_compute. reflexivity.
  - vm_compute. reflexivity.
  - reflexivity.
Defined.

(** X17: the recurrences that the tests of the package walk through,
    from mask 32 down to mask 0: the netmask of the next smaller mask is
    the netmask shifted left by one, and the range length of the next
    smaller mask is the range length doubled, both as uint32 (so the
    range length of mask 0 is 0). *)
Theorem netmask_and_range_length_steps (k : Z) :
  1 <= k <= 32 ->
  utils.GetNetmask (k - 1) = shl32 (utils.GetNetmask k) 1 /\
  utils.GetCIDRRangeLength (k - 1)
  = uint32 (utils.GetCIDRRangeLength k * 2).
Proof.
  intros Hk.
  pose proof (forall_upto
    (fun j => (utils.GetNetmask j =? shl32 (utils.GetNetmask (j + 1)) 1)
              && (utils.GetCIDRRangeLength j
                  =? uint32 (utils.GetCIDRRangeLength (j + 1) * 2)))
    32 ltac:(vm_compute; reflexivity) (k - 1) ltac:(lia)) as H.
  cbv beta in H. replace (k - 1 + 1) with k in H by lia.
  apply andb_true_iff in H as (H1 & H2).
  apply Z.eqb_eq in H1, H2. now split.
Qed.

Lemma netmask_and_range_length_steps_witness :
  utils.GetNetmask (1 - 1) = shl32 (utils.GetNetmask 1) 1 /\
  utils.GetCIDRRangeLength (1 - 1)
  = uint32 (utils.GetCIDRRangeLength 1 * 2).
Proof.
  apply netmask_and_range_length_steps. vm_compute. split; discriminate.
Defined.
